(** * Negative News Scrubber: query construction and result aggregation

    A shallow embedding of [negative_news_scrubber_app.py].  The script is a
    Streamlit page: widget values are read into module globals, a button
    starts a run, every entity is searched once through a NewsAPI client
    and the returned article dictionaries are flattened into table rows.

    Python text is modelled by [string]; each [ascii] stands for one code
    point below 256, which is enough for the whitespace and line-break
    classes that [str.strip] and [str.splitlines] consult.  Decoded JSON is
    modelled by [pyval], dictionaries by [gmap string pyval]. *)

From Stdlib Require Import ZArith Ascii.
From Stdlib Require String.
From stdpp Require Import base option list gmap strings.

Set Warnings "-register-all".

Local Open Scope Z_scope.

(** ** Text primitives of the Python runtime *)

Module PyStr.

Definition dquote : ascii := "034"%char.

(** [str.isspace] for one character (code points below 256). *)
Definition isspace (c : ascii) : bool :=
  let n := Z.of_N (N_of_ascii c) in
  ((9 <=? n) && (n <=? 13)) || ((28 <=? n) && (n <=? 32))
  || (n =? 133) || (n =? 160).

(** The line boundaries of [str.splitlines]: LF, VT, FF, CR, FS, GS, RS
    and NEL. *)
Definition is_linebreak (c : ascii) : bool :=
  let n := Z.of_N (N_of_ascii c) in
  ((10 <=? n) && (n <=? 13)) || ((28 <=? n) && (n <=? 30)) || (n =? 133).

Definition is_cr (c : ascii) : bool := Z.of_N (N_of_ascii c) =? 13.
Definition is_lf (c : ascii) : bool := Z.of_N (N_of_ascii c) =? 10.

(** Truth value of a string: [not s] holds exactly for the empty one. *)
Definition nonempty (s : string) : bool :=
  match s with EmptyString => false | String _ _ => true end.

Fixpoint lstrip (s : string) : string :=
  match s with
  | EmptyString => EmptyString
  | String c s' => if isspace c then lstrip s' else s
  end.

Fixpoint rstrip (s : string) : string :=
  match s with
  | EmptyString => EmptyString
  | String c s' =>
      match rstrip s' with
      | EmptyString => if isspace c then EmptyString else String c EmptyString
      | r => String c r
      end
  end.

(** [s.strip()] *)
Definition strip (s : string) : string := rstrip (lstrip s).

(** [s.split(sep)] for a one-character separator: never an empty list. *)
Fixpoint split (sep : ascii) (s : string) : list string :=
  match s with
  | EmptyString => [EmptyString]
  | String c s' =>
      if Ascii.eqb c sep then EmptyString :: split sep s'
      else match split sep s' with
           | [] => [String c EmptyString]
           | h :: t => String c h :: t
           end
  end.

(** [s.splitlines()]: CR LF counts as one boundary and a final boundary
    does not open an empty last line. *)
Fixpoint splitlines (s : string) : list string :=
  match s with
  | EmptyString => []
  | String c s' =>
      if is_cr c then
        match s' with
        | String c2 s'' =>
            if is_lf c2 then EmptyString :: splitlines s''
            else EmptyString :: splitlines s'
        | EmptyString => [EmptyString]
        end
      else if is_linebreak c then EmptyString :: splitlines s'
      else match splitlines s' with
           | [] => [String c EmptyString]
           | h :: t => String c h :: t
           end
  end.

(** [sep.join(parts)] *)
Fixpoint join (sep : string) (parts : list string) : string :=
  match parts with
  | [] => EmptyString
  | [p] => p
  | p :: rest => p +:+ sep +:+ join sep rest
  end.

(** [s[:n]] *)
Fixpoint take (n : nat) (s : string) : string :=
  match n, s with
  | S n', String c s' => String c (take n' s')
  | _, _ => EmptyString
  end.

(** Whether some character of [s] is not whitespace (used to state what
    [strip] leaves). *)
Definition has_nonspace (s : string) : bool :=
  existsb (fun c => negb (isspace c)) (String.list_ascii_of_string s).

End PyStr.

(** ** Configuration *)

(** The list literal of the source has no comma after ["penalty"],
    ["closed"], ["shut down"], ["out of business"] and ["stole"]: Python
    joins adjacent string literals, so the last six lines are one entry. *)
Definition DEFAULT_NEGATIVE_KEYWORDS : list string :=
  [ "scam";
    "complaint";
    "lawsuit";
    "fraud";
    "fraudulent";
    "bankruptcy";
    "chapter 11";
    "ripoff";
    "bad review";
    "negative review";
    "bbb f rating";
    "court filing";
    "fine";
    "penalty" +:+ "closed" +:+ "shut down" +:+ "out of business"
      +:+ "stole" +:+ "not answering" ].

Definition RESULTS_PER_QUERY : Z := 25.
Definition DATE_RANGE_DAYS : Z := 365 * 3.

(** ** Helper functions *)

(** [f'"{entity}" AND ({kws})'] with [kws = " OR ".join(keywords)]. *)
Definition build_query (entity : string) (keywords : list string) : string :=
  let kws := PyStr.join " OR " keywords in
  String PyStr.dquote entity +:+ String PyStr.dquote " AND (" +:+ kws +:+ ")".

(** ** Python values, exceptions and dictionary access *)

(** What [json] decoding produces: the response of the client and the
    article records inside it are untyped data of this shape.  Floats are
    left out; nothing below reads a number. *)
Inductive pyval : Type :=
  | PyNone
  | PyBool (b : bool)
  | PyInt (n : Z)
  | PyText (s : string)
  | PyList (l : list pyval)
  | PyDict (d : gmap string pyval).

(** An exception: its class name and [str(exc)]. *)
Record exn : Type := Exn { exn_class : string; exn_str : string }.

Inductive result (A : Type) : Type :=
  | Ok (a : A)
  | Raise (e : exn).
Arguments Ok {A} a.
Arguments Raise {A} e.

Definition rbind {A B} (r : result A) (k : A -> result B) : result B :=
  match r with
  | Ok a => k a
  | Raise e => Raise e
  end.

Declare Scope result_scope.
Delimit Scope result_scope with result.
Notation "x <~ r ; k" := (rbind r (fun x => k))
  (at level 100, r at next level, right associativity) : result_scope.

Fixpoint rmap {A B} (f : A -> result B) (l : list A) : result (list B) :=
  match l with
  | [] => Ok []
  | x :: l' => (y <~ f x; ys <~ rmap f l'; Ok (y :: ys))%result
  end.

Definition type_name (v : pyval) : string :=
  match v with
  | PyNone => "NoneType"
  | PyBool _ => "bool"
  | PyInt _ => "int"
  | PyText _ => "str"
  | PyList _ => "list"
  | PyDict _ => "dict"
  end.

Definition AttributeError (v : pyval) (attr : string) : exn :=
  Exn "AttributeError"
      ("'" +:+ type_name v +:+ "' object has no attribute '" +:+ attr +:+ "'").

Definition TypeError (msg : string) : exn := Exn "TypeError" msg.

(** [bool(v)] *)
Definition truthy (v : pyval) : bool :=
  match v with
  | PyNone => false
  | PyBool b => b
  | PyInt n => negb (n =? 0)
  | PyText s => PyStr.nonempty s
  | PyList l => match l with [] => false | _ => true end
  | PyDict d => negb (bool_decide (d = ∅))
  end.

(** [v.get(key, default)]: only dictionaries have the method. *)
Definition py_get (v : pyval) (key : string) (default : pyval) : result pyval :=
  match v with
  | PyDict d => Ok (match d !! key with Some x => x | None => default end)
  | _ => Raise (AttributeError v "get")
  end.

(** [v[:10]]: strings and lists are sliced; a dictionary rejects the
    slice as a key (TypeError up to Python 3.11, KeyError from 3.12). *)
Definition py_slice10 (v : pyval) : result pyval :=
  match v with
  | PyText s => Ok (PyText (PyStr.take 10 s))
  | PyList l => Ok (PyList (take 10 l))
  | PyDict _ => Raise (TypeError "unhashable type: 'slice'")
  | _ => Raise (TypeError ("'" +:+ type_name v +:+ "' object is not subscriptable"))
  end.

(** The elements a [for] loop visits.  A string yields its characters and
    a dictionary its keys; the order of the keys is immaterial below, as
    every key is a string and fails alike in the loop body. *)
Definition py_iter (v : pyval) : result (list pyval) :=
  match v with
  | PyList l => Ok l
  | PyText s =>
      Ok (map (fun c => PyText (String c EmptyString)) (String.list_ascii_of_string s))
  | PyDict d => Ok (map (fun kv => PyText kv.1) (map_to_list d))
  | _ => Raise (TypeError ("'" +:+ type_name v +:+ "' object is not iterable"))
  end.

(** ** Calendar dates of the [datetime] module *)

Module Date.

Definition MAXORDINAL : Z := 3652059.

Definition DAYS_BEFORE_MONTH (month : Z) : Z :=
  match month with
  | 1 => 0 | 2 => 31 | 3 => 59 | 4 => 90 | 5 => 120 | 6 => 151 | 7 => 181
  | 8 => 212 | 9 => 243 | 10 => 273 | 11 => 304 | 12 => 334 | _ => -1
  end.

Definition DAYS_IN_MONTH (month : Z) : Z :=
  match month with
  | 1 => 31 | 2 => 28 | 3 => 31 | 4 => 30 | 5 => 31 | 6 => 30 | 7 => 31
  | 8 => 31 | 9 => 30 | 10 => 31 | 11 => 30 | 12 => 31 | _ => -1
  end.

Definition b2z (b : bool) : Z := if b then 1 else 0.

(** Proleptic Gregorian ordinal (day 1 is 0001-01-01) to year, month,
    day, as [datetime._ord2ymd] computes it. *)
Definition ord2ymd (ordinal : Z) : Z * Z * Z :=
  let n := ordinal - 1 in
  let n400 := n / 146097 in
  let n := n mod 146097 in
  let year := n400 * 400 + 1 in
  let n100 := n / 36524 in
  let n := n mod 36524 in
  let n4 := n / 1461 in
  let n := n mod 1461 in
  let n1 := n / 365 in
  let n := n mod 365 in
  let year := year + n100 * 100 + n4 * 4 + n1 in
  if (n1 =? 4) || (n100 =? 4) then (year - 1, 12, 31)
  else
    let leapyear := (n1 =? 3) && (negb (n4 =? 24) || (n100 =? 3)) in
    let month := Z.shiftr (n + 50) 5 in
    let preceding := DAYS_BEFORE_MONTH month + b2z ((2 <? month) && leapyear) in
    if n <? preceding then
      let month := month - 1 in
      let preceding :=
        preceding - (DAYS_IN_MONTH month + b2z ((month =? 2) && leapyear)) in
      (year, month, n - preceding + 1)
    else (year, month, n - preceding + 1).

Definition digit (n : Z) : ascii := ascii_of_N (48 + Z.to_N (n mod 10)).

Definition pad2 (n : Z) : string :=
  String (digit (n / 10)) (String (digit n) EmptyString).

Definition pad4 (n : Z) : string :=
  String (digit (n / 1000)) (String (digit (n / 100)) (pad2 n)).

(** [d.strftime("%Y-%m-%d")] *)
Definition strftime_ymd (ordinal : Z) : string :=
  let '(y, m, d) := ord2ymd ordinal in
  pad4 y +:+ "-" +:+ pad2 m +:+ "-" +:+ pad2 d.

(** [d - timedelta(days=days)]: the result must stay within years
    1..9999. *)
Definition minus_days (ordinal days : Z) : result Z :=
  let r := ordinal - days in
  if (1 <=? r) && (r <=? MAXORDINAL) then Ok r
  else Raise (Exn "OverflowError" "date value out of range").

End Date.

(** ** The Streamlit page *)

(** The widget values of one script run (the module globals [api_key],
    [names_input], [custom_kw], [lookback_years], [results_limit] and
    [run_search]). *)
Record widgets : Type := Widgets {
  api_key : string;
  names_input : string;
  custom_kw : string;
  lookback_years : Z;
  results_limit : Z;
  run_search : bool
}.

(** Keyword arguments of [NewsApiClient.get_everything]. *)
Record request : Type := Request {
  q : string;
  from_param : string;
  language : string;
  sort_by : string;
  page_size : Z
}.

(** What one call of the client does: it raises an [Exception] (bad
    status, transport or argument error) or returns the decoded JSON. *)
Definition reply : Type := result pyval.

(** The dictionary appended to [aggregated_rows]; its five keys are fixed,
    so it is a record here. *)
Record row : Type := Row {
  Entity : string;
  Title : pyval;
  Source : pyval;
  Published : pyval;
  URL : pyval
}.

(** The dictionary literal of the inner loop, its entries evaluated in
    the order they are written. *)
Definition make_row (entity : string) (art : pyval) : result row :=
  (title <~ py_get art "title" PyNone;
   source <~ py_get art "source" (PyDict ∅);
   name <~ py_get source "name" PyNone;
   cond <~ py_get art "publishedAt" PyNone;
   published <~ (if truthy cond
                 then (p <~ py_get art "publishedAt" PyNone; py_slice10 p)
                 else Ok PyNone);
   url <~ py_get art "url" PyNone;
   Ok (Row entity title name published url))%result.

(** How a statement ends: normally, with an exception that propagates, or
    with [st.stop()], which ends the script run and is not an [Exception]. *)
Inductive flow (A : Type) : Type :=
  | Done (a : A)
  | Raised (e : exn)
  | Stopped.
Arguments Done {A} a.
Arguments Raised {A} e.
Arguments Stopped {A}.

Section Page.

(** The world outside the script: the clock and the news service.
    [utcnow] is the ordinal of the current UTC date (the time of day
    never reaches the request); [get_everything] is the HTTP call of
    the client created from an API key.  Both are arbitrary. *)
Variable World : Type.
Variable utcnow : World -> Z.
Variable get_everything : string -> request -> World -> reply * World.

(** The script state: the world, what [st.error] has shown, the calls
    made so far with their replies (a ghost log), and the accumulator of
    the main loop. *)
Record page : Type := Page {
  world : World;
  errors : list string;
  calls : list (request * reply);
  aggregated_rows : list row
}.

Definition M (A : Type) : Type := page -> flow A * page.

Definition ret {A} (a : A) : M A := fun s => (Done a, s).

Definition bind {A B} (m : M A) (k : A -> M B) : M B :=
  fun s =>
    match m s with
    | (Done a, s') => k a s'
    | (Raised e, s') => (Raised e, s')
    | (Stopped, s') => (Stopped, s')
    end.

Notation "x <- m ;; k" := (bind m (fun x => k))
  (at level 100, m at next level, right associativity).
Notation "m ;; k" := (bind m (fun _ => k))
  (at level 100, right associativity).

Definition lift {A} (r : result A) : M A :=
  fun s => match r with Ok a => (Done a, s) | Raise e => (Raised e, s) end.

(** [try: body except Exception as exc: handler(exc)] *)
Definition try_except {A} (body : M A) (handler : exn -> M A) : M A :=
  fun s =>
    match body s with
    | (Raised e, s') => handler e s'
    | other => other
    end.

Definition st_error (msg : string) : M unit :=
  fun s => (Done tt, Page (world s) (errors s ++ [msg]) (calls s) (aggregated_rows s)).

Definition st_stop {A} : M A := fun s => (Stopped, s).

Definition read_clock : M Z := fun s => (Done (utcnow (world s)), s).

(** [client.get_everything(...)] *)
Definition client_get_everything (key : string) (req : request) : M pyval :=
  fun s =>
    let '(r, w) := get_everything key req (world s) in
    let s' := Page w (errors s) (calls s ++ [(req, r)]) (aggregated_rows s) in
    match r with
    | Ok res => (Done res, s')
    | Raise e => (Raised e, s')
    end.

(** [aggregated_rows.append(r)] *)
Definition append_row (r : row) : M unit :=
  fun s => (Done tt, Page (world s) (errors s) (calls s) (aggregated_rows s ++ [r])).

Definition reset_rows : M unit :=
  fun s => (Done tt, Page (world s) (errors s) (calls s) []).

Fixpoint for_each {A} (l : list A) (body : A -> M unit) : M unit :=
  match l with
  | [] => ret tt
  | x :: l' => body x ;; for_each l' body
  end.

Section Run.

Variable ui : widgets.

(** The client object is represented by the key it was created with. *)
Definition search_entity (entity : string) (client : string)
    (keywords : list string) : M pyval :=
  let query := build_query entity keywords in
  now <- read_clock ;;
  day <- lift (Date.minus_days now (lookback_years ui * 365)) ;;
  let date_from := Date.strftime_ymd day in
  try_except
    (res <- client_get_everything client
              (Request query date_from "en" "relevancy"
                       (Z.min (results_limit ui) 100)) ;;
     lift (py_get res "articles" (PyList [])))
    (fun exc =>
       st_error ("Error querying NewsAPI for " +:+ entity +:+ ": "
                 +:+ exn_str exc) ;;
       ret (PyList [])).

Definition negative_keywords : list string :=
  DEFAULT_NEGATIVE_KEYWORDS
  ++ map PyStr.strip
       (filter (fun kw => PyStr.nonempty (PyStr.strip kw) = true)
               (PyStr.split ","%char (custom_kw ui))).

Definition entities : list string :=
  map PyStr.strip
    (filter (fun n => PyStr.nonempty (PyStr.strip n) = true)
            (PyStr.splitlines (names_input ui))).

(** The body of [for idx, entity in enumerate(entities, start=1)];
    the spinner and the progress bar only draw. *)
Definition search_and_flatten (newsapi : string) (entity : string) : M unit :=
  articles <- search_entity entity newsapi negative_keywords ;;
  arts <- lift (py_iter articles) ;;
  for_each arts (fun art =>
    r <- lift (make_row entity art) ;;
    append_row r).

(** The main execution block; rendering the table and the download
    button at its end only draws [aggregated_rows]. *)
Definition main : M unit :=
  if run_search ui then
    (if negb (PyStr.nonempty (api_key ui)) then
       st_error "Please provide a valid NewsAPI.org key to proceed." ;;
       st_stop
     else ret tt) ;;
    (if negb (PyStr.nonempty (PyStr.strip (names_input ui))) then
       st_error "Please enter at least one e‑mail or business name." ;;
       st_stop
     else ret tt) ;;
    let newsapi := api_key ui in
    reset_rows ;;
    for_each entities (search_and_flatten newsapi)
  else ret tt.

End Run.

Definition fresh (w : World) : page := Page w [] [] [].

End Page.

Arguments world {World} _.
Arguments errors {World} _.
Arguments calls {World} _.
Arguments aggregated_rows {World} _.
Arguments fresh {World} w.
Arguments ret {World A} a _.
Arguments bind {World A B} m k _.
Arguments lift {World A} r _.
Arguments try_except {World A} body handler _.
Arguments st_error {World} msg _.
Arguments st_stop {World A} _.
Arguments append_row {World} r _.
Arguments reset_rows {World} _.
Arguments for_each {World A} l body _.
Arguments read_clock {World} utcnow _.
Arguments client_get_everything {World} get_everything key req _.
Arguments search_entity {World} utcnow get_everything ui entity client keywords _.
Arguments search_and_flatten {World} utcnow get_everything ui newsapi entity _.
Arguments main {World} utcnow get_everything ui _.

(** ** Reading a run off its call log *)

(** The keyword arguments [search_entity] passes for an entity when the
    clock shows day [now]. *)
Definition request_for (ui : widgets) (entity : string) (keywords : list string)
    (now : Z) : result request :=
  (day <~ Date.minus_days now (lookback_years ui * 365);
   Ok (Request (build_query entity keywords) (Date.strftime_ymd day)
               "en" "relevancy" (Z.min (results_limit ui) 100)))%result.

(** The exception that reaches the [except] clause of [search_entity], if
    any: the one the client raised, or the one [res.get] raises on a
    response that is no dictionary. *)
Definition caught (r : reply) : option exn :=
  match r with
  | Raise e => Some e
  | Ok res =>
      match py_get res "articles" (PyList []) with
      | Ok _ => None
      | Raise e => Some e
      end
  end.

(** The value [search_entity] hands back for a reply. *)
Definition articles_of (r : reply) : pyval :=
  match r with
  | Raise _ => PyList []
  | Ok res =>
      match py_get res "articles" (PyList []) with
      | Ok v => v
      | Raise _ => PyList []
      end
  end.

Definition failure_report (entity : string) (e : exn) : string :=
  "Error querying NewsAPI for " +:+ entity +:+ ": " +:+ exn_str e.

(** The rows of one entity: its articles flattened in reply order. *)
Definition entity_rows (entity : string) (r : reply) : result (list row) :=
  (arts <~ py_iter (articles_of r); rmap (make_row entity) arts)%result.

Definition article_count (r : reply) : nat :=
  match py_iter (articles_of r) with
  | Ok arts => length arts
  | Raise _ => 0%nat
  end.

(** The failure reports and the table that a list of entities and the
    log of their calls determine. *)
Definition reported (es : list string) (log : list (request * reply)) : list string :=
  omap (fun ec => failure_report ec.1 <$> caught ec.2.2) (zip es log).

Definition flattened (es : list string) (log : list (request * reply))
    : result (list row) :=
  (rowss <~ rmap (fun ec => entity_rows ec.1 ec.2.2) (zip es log);
   Ok (concat rowss))%result.

(** The page after one call of the client for [entity]: the world has
    moved, the call is logged and a failure is shown. *)
Definition after_call {World : Type} (s : page World) (entity : string) (req : request)
    (r : reply) (w : World) : page World :=
  Page World w (errors s ++ option_list (failure_report entity <$> caught r))
       (calls s ++ [(req, r)]) (aggregated_rows s).

Definition with_rows {World : Type} (s : page World) (rows : list row) : page World :=
  Page World (world s) (errors s) (calls s) (aggregated_rows s ++ rows).

(** The query of the specification, written out keyword by keyword:
    the quoted entity, [AND], then the first keyword and every further
    one behind an [OR]. *)
Definition query_form (entity kw1 : string) (more : list string) : string :=
  String PyStr.dquote EmptyString +:+ entity +:+ String PyStr.dquote EmptyString
  +:+ " AND (" +:+ kw1
  +:+ foldr (fun kw acc => " OR " +:+ kw +:+ acc) EmptyString more +:+ ")".

(** ** A scripted news service

    A world for running the page on concrete inputs: the clock stands
    at 2024-03-01 and the n-th call of the client gets the n-th scripted
    reply, whatever the request. *)

Definition scripted_clock (n : nat) : Z := 738946.

Definition scripted (replies : list reply) (key : string) (req : request)
    (n : nat) : reply * nat :=
  (nth n replies (Raise (Exn "ConnectionError" "connection refused")), S n).

Definition sued_fields : gmap string pyval :=
  {[ "title" := PyText "Acme sued for fraud";
     "source" := PyDict {[ "id" := PyNone; "name" := PyText "Daily News" ]};
     "publishedAt" := PyText "2024-03-01T12:00:00Z";
     "url" := PyText "http://example.com/1" ]}.

Definition article_sued : pyval := PyDict sued_fields.

Definition sued_row : row :=
  Row "a@x.com" (PyText "Acme sued for fraud") (PyText "Daily News")
      (PyText "2024-03-01") (PyText "http://example.com/1").

Definition null_source_fields : gmap string pyval :=
  {[ "title" := PyText "Acme closes";
     "source" := PyNone;
     "publishedAt" := PyText "2024-02-11T08:30:00Z";
     "url" := PyText "http://example.com/2" ]}.

Definition article_null_source : pyval := PyDict null_source_fields.

Definition response_body (arts : list pyval) : pyval :=
  PyDict {[ "status" := PyText "ok";
            "totalResults" := PyInt (Z.of_nat (length arts));
            "articles" := PyList arts ]}.

Definition response (arts : list pyval) : reply := Ok (response_body arts).

Definition invalid_key : exn :=
  Exn "NewsAPIException" "{'status': 'error', 'code': 'apiKeyInvalid'}".

Definition newline : string := String "010"%char EmptyString.

(** The form as it is first shown (three years back, 25 articles), with
    a key and the text area filled in and the button pressed. *)
Definition form (key names : string) : widgets :=
  Widgets key names "" 3 RESULTS_PER_QUERY true.

Definition two_names : widgets :=
  form "k" ("a@x.com" +:+ newline +:+ "Acme LLC").

Definition repeated_names : widgets :=
  form "k" ("Acme LLC" +:+ newline +:+ newline +:+ "  Acme LLC  " +:+ newline
            +:+ " " +:+ newline +:+ "Bad Corp").

Definition blank_names : widgets := form "k" ("  " +:+ newline +:+ " ").

(** The request the first form sends for an entity on 2024-03-01. *)
Definition request_2021 (entity : string) : request :=
  Request (build_query entity (negative_keywords two_names)) "2021-03-02"
          "en" "relevancy" 25.

(** ** Showing the results *)

(** What the end of the main block draws: the table of matches with its
    CSV download when [aggregated_rows] is non-empty, the success message
    otherwise.  [Matches] stands for the data frame built from the rows;
    how pandas and Streamlit draw and encode it is left out. *)
Inductive shown : Type :=
  | Matches (table : list row)
  | NoNews (msg : string).

Definition show_results {World : Type} (s : page World) : shown :=
  match aggregated_rows s with
  | [] =>
      NoNews "🎉 No negative news found for any entries in the specified time window."
  | rows => Matches rows
  end.

(** The ranges the slider and the number input enforce. *)
Definition widget_ranges (ui : widgets) : Prop :=
  1 <= lookback_years ui <= 10 /\ 1 <= results_limit ui <= 100.

(** The characters of a text. *)
Definition chars (s : string) : list ascii := String.list_ascii_of_string s.

(** Asking the service the given requests one after the other. *)
Fixpoint replay {World : Type}
    (get_everything : string -> request -> World -> reply * World)
    (key : string) (reqs : list request) (w : World) : list reply * World :=
  match reqs with
  | [] => ([], w)
  | req :: reqs' =>
      let '(r, w1) := get_everything key req w in
      let '(rs, w2) := replay get_everything key reqs' w1 in
      (r :: rs, w2)
  end.

Definition custom_keywords (ui : widgets) : list string :=
  drop (length DEFAULT_NEGATIVE_KEYWORDS) (negative_keywords ui).

Definition with_keywords (kw : string) : widgets :=
  Widgets "k" "Acme LLC" kw 3 RESULTS_PER_QUERY true.

(** [d.get(key)] on a dictionary. *)
Definition field (d : gmap string pyval) (key : string) : pyval :=
  match d !! key with Some x => x | None => PyNone end.

(** Further responses for the scripted service. *)
Definition error_body : gmap string pyval :=
  {[ "status" := PyText "error"; "code" := PyText "rateLimited" ]}.

Definition null_articles_body : pyval :=
  PyDict {[ "status" := PyText "ok"; "articles" := PyNone ]}.

Definition scam_request : request :=
  Request (build_query "Acme LLC" ["scam"]) "2021-03-02" "en" "relevancy" 25.


(** * Properties *)

(** ** Text *)

Lemma append_nil (t : string) : EmptyString +:+ t = t.
Proof. reflexivity. Qed.

Lemma append_cons (c : ascii) (s t : string) :
  String c s +:+ t = String c (s +:+ t).
Proof. reflexivity. Qed.

Lemma append_nil_r (s : string) : s +:+ EmptyString = s.
Proof. induction s as [|c s IH]; [done|]. by rewrite append_cons, IH. Qed.

Lemma append_assoc (s1 s2 s3 : string) : (s1 +:+ s2) +:+ s3 = s1 +:+ s2 +:+ s3.
Proof.
  induction s1 as [|c s1 IH]; [done|]. by rewrite !append_cons, IH.
Qed.

Lemma join_cons (sep p : string) (rest : list string) :
  PyStr.join sep (p :: rest)
  = p +:+ foldr (fun kw acc => sep +:+ kw +:+ acc) EmptyString rest.
Proof.
  revert p. induction rest as [|p' rest IH]; intros p.
  - simpl. by rewrite append_nil_r.
  - change (PyStr.join sep (p :: p' :: rest))
      with (p +:+ sep +:+ PyStr.join sep (p' :: rest)).
    by rewrite IH.
Qed.

Lemma take_length (n : nat) (s : string) :
  (n <= String.length s)%nat -> String.length (PyStr.take n s) = n.
Proof.
  revert s. induction n as [|n IH]; intros [|c s]; simpl; try lia.
  intros H. rewrite IH; lia.
Qed.

Lemma linebreak_isspace (c : ascii) :
  PyStr.is_linebreak c = true -> PyStr.isspace c = true.
Proof. destruct c as [[] [] [] [] [] [] [] []]; vm_compute; congruence. Qed.

Lemma cr_linebreak (c : ascii) :
  PyStr.is_cr c = true -> PyStr.is_linebreak c = true.
Proof. destruct c as [[] [] [] [] [] [] [] []]; vm_compute; congruence. Qed.

Lemma lf_linebreak (c : ascii) :
  PyStr.is_lf c = true -> PyStr.is_linebreak c = true.
Proof. destruct c as [[] [] [] [] [] [] [] []]; vm_compute; congruence. Qed.

Lemma has_nonspace_cons (c : ascii) (s : string) :
  PyStr.has_nonspace (String c s) = negb (PyStr.isspace c) || PyStr.has_nonspace s.
Proof. reflexivity. Qed.

Lemma nonempty_rstrip (s : string) :
  PyStr.nonempty (PyStr.rstrip s) = PyStr.has_nonspace s.
Proof.
  induction s as [|c s IH]; [done|].
  rewrite has_nonspace_cons, <- IH. simpl.
  destruct (PyStr.rstrip s); simpl.
  - by destruct (PyStr.isspace c).
  - by rewrite orb_true_r.
Qed.

Lemma has_nonspace_lstrip (s : string) :
  PyStr.has_nonspace (PyStr.lstrip s) = PyStr.has_nonspace s.
Proof.
  induction s as [|c s IH]; [done|].
  rewrite has_nonspace_cons. simpl.
  destruct (PyStr.isspace c) eqn:Hc; simpl; [done|].
  by rewrite has_nonspace_cons, Hc.
Qed.

(** A stripped string is non-empty exactly when the string has a
    character that is no whitespace. *)
Lemma nonempty_strip (s : string) :
  PyStr.nonempty (PyStr.strip s) = PyStr.has_nonspace s.
Proof. unfold PyStr.strip. by rewrite nonempty_rstrip, has_nonspace_lstrip. Qed.

Lemma blank_then (ls : list string) :
  existsb PyStr.has_nonspace (EmptyString :: ls) = existsb PyStr.has_nonspace ls.
Proof. reflexivity. Qed.

Lemma first_line_grows (c : ascii) (ls : list string) :
  existsb PyStr.has_nonspace
    (match ls with [] => [String c EmptyString] | h :: t => String c h :: t end)
  = negb (PyStr.isspace c) || existsb PyStr.has_nonspace ls.
Proof.
  destruct ls as [|h t]; simpl existsb; rewrite has_nonspace_cons.
  - by rewrite !orb_false_r.
  - by rewrite orb_assoc.
Qed.

(** Line boundaries are whitespace, so a visible character of the text is
    a visible character of one of its lines. *)
Lemma splitlines_nonspace (s : string) :
  existsb PyStr.has_nonspace (PyStr.splitlines s) = PyStr.has_nonspace s.
Proof.
  enough (H : existsb PyStr.has_nonspace (PyStr.splitlines s) = PyStr.has_nonspace s
              /\ forall c, existsb PyStr.has_nonspace (PyStr.splitlines (String c s))
                           = PyStr.has_nonspace (String c s)) by apply H.
  induction s as [|c' s [IH1 IH2]].
  - split; [done|]. intros c. rewrite has_nonspace_cons.
    change (PyStr.splitlines (String c EmptyString)) with
      (if PyStr.is_cr c then [EmptyString]
       else if PyStr.is_linebreak c then [EmptyString]
       else [String c EmptyString]).
    destruct (PyStr.is_cr c) eqn:Hcr.
    + by rewrite (linebreak_isspace c (cr_linebreak c Hcr)).
    + destruct (PyStr.is_linebreak c) eqn:Hlb.
      * by rewrite (linebreak_isspace c Hlb).
      * apply (first_line_grows c []).
  - split; [apply IH2|]. intros c.
    rewrite (has_nonspace_cons c).
    change (PyStr.splitlines (String c (String c' s))) with
      (if PyStr.is_cr c then
         if PyStr.is_lf c' then EmptyString :: PyStr.splitlines s
         else EmptyString :: PyStr.splitlines (String c' s)
       else if PyStr.is_linebreak c then EmptyString :: PyStr.splitlines (String c' s)
       else match PyStr.splitlines (String c' s) with
            | [] => [String c EmptyString]
            | h :: t => String c h :: t
            end).
    destruct (PyStr.is_cr c) eqn:Hcr.
    + rewrite (linebreak_isspace c (cr_linebreak c Hcr)).
      destruct (PyStr.is_lf c') eqn:Hlf; rewrite blank_then.
      * rewrite IH1, has_nonspace_cons.
        by rewrite (linebreak_isspace c' (lf_linebreak c' Hlf)).
      * by rewrite IH2.
    + destruct (PyStr.is_linebreak c) eqn:Hlb.
      * rewrite (linebreak_isspace c Hlb), blank_then. by rewrite IH2.
      * by rewrite first_line_grows, IH2.
Qed.

(** [entities] is empty exactly when the text area holds nothing but
    whitespace, which is what the guard of the main block tests. *)
Lemma entities_nil (ui : widgets) :
  entities ui = [] <-> PyStr.nonempty (PyStr.strip (names_input ui)) = false.
Proof.
  unfold entities.
  rewrite nonempty_strip, <- splitlines_nonspace.
  generalize (PyStr.splitlines (names_input ui)). intros ls.
  induction ls as [|l ls IH]; [done|].
  rewrite filter_cons. simpl existsb. rewrite <- nonempty_strip.
  destruct (decide (PyStr.nonempty (PyStr.strip l) = true)) as [Hl|Hl].
  - rewrite Hl. simpl. split; discriminate.
  - apply not_true_is_false in Hl. rewrite Hl. simpl. apply IH.
Qed.

(** ** Rows *)

Lemma rmap_length {A B} (f : A -> result B) (l : list A) (k : list B) :
  rmap f l = Ok k -> length k = length l.
Proof.
  revert k. induction l as [|x l IH]; intros k; simpl.
  - by intros [= <-].
  - destruct (f x); [|done]. simpl. destruct (rmap f l); [|done]. simpl.
    intros [= <-]. simpl. by rewrite (IH _ eq_refl).
Qed.

Lemma rmap_Forall {A B} (f : A -> result B) (P : B -> Prop) (l : list A) (k : list B) :
  (forall x y, f x = Ok y -> P y) -> rmap f l = Ok k -> Forall P k.
Proof.
  intros Hf. revert k. induction l as [|x l IH]; intros k; simpl.
  - intros [= <-]. constructor.
  - destruct (f x) eqn:Hx; [|done]. simpl. destruct (rmap f l); [|done]. simpl.
    intros [= <-]. constructor; eauto.
Qed.

Lemma make_row_entity (entity : string) (art : pyval) (r : row) :
  make_row entity art = Ok r -> Entity r = entity.
Proof.
  unfold make_row.
  repeat (match goal with
          | |- context [rbind ?x _] => destruct x; simpl; [|done]
          end).
  by intros [= <-].
Qed.

(** The [Published] entry on its own: the conditional expression of the
    dictionary literal. *)
Lemma make_row_published (entity : string) (d : gmap string pyval) (r : row) :
  make_row entity (PyDict d) = Ok r ->
  let p := match d !! "publishedAt" with Some x => x | None => PyNone end in
  if truthy p then py_slice10 p = Ok (Published r) else Published r = PyNone.
Proof.
  unfold make_row. simpl.
  destruct (py_get _ "name" _); simpl; [|done].
  destruct (truthy _); simpl.
  - destruct (py_slice10 _); simpl; [|done]. by intros [= <-].
  - by intros [= <-].
Qed.

(** A record without [source] is flattened with a null [Source]: the
    default of the first [get] is an empty dictionary. *)
Lemma make_row_source_absent (entity : string) (d : gmap string pyval) (r : row) :
  d !! "source" = None -> make_row entity (PyDict d) = Ok r -> Source r = PyNone.
Proof.
  intros Hsrc. unfold make_row. simpl. rewrite Hsrc. simpl.
  destruct (truthy _); simpl.
  - destruct (py_slice10 _); simpl; [|done]. by intros [= <-].
  - by intros [= <-].
Qed.

(** ** Lines and dates *)

Example splitlines_mixed :
  PyStr.splitlines ("a" +:+ newline +:+ String "013"%char newline +:+ "  b "
                    +:+ newline)
  = ["a"; ""; "  b "].
Proof. reflexivity. Qed.

Example entities_trimmed :
  entities repeated_names = ["Acme LLC"; "Acme LLC"; "Bad Corp"].
Proof. reflexivity. Qed.

Example entities_blank : entities blank_names = [].
Proof. reflexivity. Qed.

Example strftime_epoch : Date.strftime_ymd 719163 = "1970-01-01".
Proof. reflexivity. Qed.

Example strftime_leap_day : Date.strftime_ymd 738945 = "2024-02-29".
Proof. reflexivity. Qed.

(** Three look-back years are 1095 days, one day short of three calendar
    years when a leap day lies in between. *)
Example three_years_back :
  rbind (Date.minus_days 738946 (3 * 365)) (fun d => Ok (Date.strftime_ymd d))
  = Ok "2021-03-02".
Proof. reflexivity. Qed.

(** ** Query construction *)

(** C2: for a non-empty entity and a non-empty keyword list,
    [build_query] returns exactly the quoted entity, [ AND (], the
    keywords verbatim in the given order with [ OR ] between them, and
    the closing parenthesis. *)
Theorem build_query_form (entity : string) (keywords : list string) :
  entity <> EmptyString -> keywords <> [] ->
  exists kw1 more,
    keywords = kw1 :: more
    /\ build_query entity keywords = query_form entity kw1 more.
Proof.
  intros _ Hkw. destruct keywords as [|kw1 more]; [done|].
  exists kw1, more. split; [done|].
  unfold build_query, query_form. rewrite join_cons.
  by rewrite !append_cons, !append_nil, append_assoc.
Qed.

Lemma build_query_form_witness :
  exists kw1 more,
    ["scam"; "bad review"; "chapter 11"] = kw1 :: more
    /\ build_query "Acme, Inc." ["scam"; "bad review"; "chapter 11"]
       = query_form "Acme, Inc." kw1 more.
Proof. apply build_query_form; discriminate. Defined.

(** C10: with no keyword at all [build_query] still returns a string, the
    quoted entity followed by [ AND ()]. *)
Theorem build_query_without_keywords (entity : string) :
  entity <> EmptyString ->
  build_query entity []
  = String PyStr.dquote EmptyString +:+ entity
    +:+ String PyStr.dquote EmptyString +:+ " AND ()".
Proof.
  intros _. unfold build_query. simpl PyStr.join.
  by rewrite !append_cons, !append_nil.
Qed.

Lemma build_query_without_keywords_witness :
  build_query "Bad Corp" []
  = String PyStr.dquote EmptyString +:+ "Bad Corp"
    +:+ String PyStr.dquote EmptyString +:+ " AND ()".
Proof. apply build_query_without_keywords. discriminate. Defined.

(** C3: the built-in list has fourteen entries; its last one is the run
    of the six literals from [penalty] to [not answering], so none of the
    business-closure terms, nor [penalty], is an entry of the list.  The
    fraud, legal and reputational terms are entries of their own. *)
Theorem closure_keywords_are_merged :
  length DEFAULT_NEGATIVE_KEYWORDS = 14%nat
  /\ last DEFAULT_NEGATIVE_KEYWORDS
     = Some "penaltyclosedshut downout of businessstolenot answering"
  /\ ("penalty" ∉ DEFAULT_NEGATIVE_KEYWORDS)
  /\ ("closed" ∉ DEFAULT_NEGATIVE_KEYWORDS)
  /\ ("shut down" ∉ DEFAULT_NEGATIVE_KEYWORDS)
  /\ ("out of business" ∉ DEFAULT_NEGATIVE_KEYWORDS)
  /\ ("stole" ∉ DEFAULT_NEGATIVE_KEYWORDS)
  /\ ("not answering" ∉ DEFAULT_NEGATIVE_KEYWORDS)
  /\ Forall (fun kw => kw ∈ DEFAULT_NEGATIVE_KEYWORDS)
       ["scam"; "fraud"; "fraudulent"; "ripoff";
        "lawsuit"; "bankruptcy"; "chapter 11"; "court filing"; "fine";
        "complaint"; "bad review"; "negative review"; "bbb f rating"].
Proof.
  repeat split; try reflexivity;
    apply (bool_decide_unpack _); vm_compute; exact I.
Qed.

(** ** Row flattening *)

(** C5: in a produced row, [Published] is the first ten characters of
    [publishedAt] when the record has one (a non-empty string), hence
    exactly ten characters for a longer timestamp, and it is null when
    [publishedAt] is absent, null or empty. *)
Theorem published_is_date_prefix (entity : string) (d : gmap string pyval) (r : row) :
  make_row entity (PyDict d) = Ok r ->
  (forall s, d !! "publishedAt" = Some (PyText s) -> s <> EmptyString ->
     Published r = PyText (PyStr.take 10 s)
     /\ ((10 < String.length s)%nat -> String.length (PyStr.take 10 s) = 10%nat))
  /\ (d !! "publishedAt" = None \/ d !! "publishedAt" = Some PyNone
      \/ d !! "publishedAt" = Some (PyText EmptyString) ->
      Published r = PyNone).
Proof.
  intros Hrow. apply make_row_published in Hrow. simpl in Hrow. split.
  - intros s Hs Hne. rewrite Hs in Hrow. simpl in Hrow.
    destruct s as [|c s]; [done|]. simpl in Hrow. injection Hrow as <-.
    split; [done|]. intros Hlen. apply take_length. lia.
  - intros [H|[H|H]]; by rewrite H in Hrow.
Qed.

Lemma published_is_date_prefix_witness :
  (forall s, sued_fields !! "publishedAt" = Some (PyText s) -> s <> EmptyString ->
     Published sued_row = PyText (PyStr.take 10 s)
     /\ ((10 < String.length s)%nat -> String.length (PyStr.take 10 s) = 10%nat))
  /\ (sued_fields !! "publishedAt" = None
      \/ sued_fields !! "publishedAt" = Some PyNone
      \/ sued_fields !! "publishedAt" = Some (PyText EmptyString) ->
      Published sued_row = PyNone).
Proof. apply (published_is_date_prefix "a@x.com"). vm_compute. reflexivity. Defined.

(** ** The page *)

(** ** Trimmed lines and keywords *)

Lemma chars_cons (c : ascii) (s : string) : chars (String c s) = c :: chars s.
Proof. reflexivity. Qed.

Lemma nonempty_true (s : string) : PyStr.nonempty s = true <-> s <> EmptyString.
Proof. by destruct s. Qed.

Lemma lstrip_trimmed_head (s : string) :
  match PyStr.lstrip s with
  | EmptyString => True
  | String c _ => PyStr.isspace c = false
  end.
Proof.
  induction s as [|c s IH]; [done|]. simpl.
  by destruct (PyStr.isspace c) eqn:Hc.
Qed.

Lemma rstrip_keeps_head (c : ascii) (s : string) :
  PyStr.isspace c = false -> exists r, PyStr.rstrip (String c s) = String c r.
Proof.
  intros Hc. simpl. rewrite Hc. destruct (PyStr.rstrip s); eauto.
Qed.

Lemma rstrip_idem (s : string) : PyStr.rstrip (PyStr.rstrip s) = PyStr.rstrip s.
Proof.
  induction s as [|c s IH]; [done|]. simpl.
  destruct (PyStr.rstrip s) as [|c' r] eqn:Hr.
  - destruct (PyStr.isspace c) eqn:Hc; [done|]. simpl. by rewrite Hc.
  - change (PyStr.rstrip (String c (String c' r))) with
      (match PyStr.rstrip (String c' r) with
       | EmptyString => if PyStr.isspace c then EmptyString else String c EmptyString
       | r0 => String c r0
       end).
    by rewrite IH.
Qed.

(** Stripping twice changes nothing. *)
Lemma strip_idem (s : string) : PyStr.strip (PyStr.strip s) = PyStr.strip s.
Proof.
  unfold PyStr.strip at 2 3.
  pose proof (lstrip_trimmed_head s) as Hhead.
  destruct (PyStr.lstrip s) as [|c t] eqn:Hl; [done|].
  destruct (rstrip_keeps_head c t Hhead) as [r Hr]. rewrite Hr.
  unfold PyStr.strip. simpl PyStr.lstrip. rewrite Hhead, <- Hr.
  apply rstrip_idem.
Qed.

Lemma lstrip_chars (s : string) (c : ascii) :
  c ∈ chars (PyStr.lstrip s) -> c ∈ chars s.
Proof.
  induction s as [|c' s IH]; [done|]. simpl PyStr.lstrip.
  destruct (PyStr.isspace c'); [|done].
  intros H. rewrite chars_cons. right. by apply IH.
Qed.

Lemma rstrip_chars (s : string) (c : ascii) :
  c ∈ chars (PyStr.rstrip s) -> c ∈ chars s.
Proof.
  revert c. induction s as [|c' s IH]; intros c; [done|]. simpl PyStr.rstrip.
  destruct (PyStr.rstrip s) as [|c2 r].
  - destruct (PyStr.isspace c'); [by intros ?%elem_of_nil|].
    rewrite !chars_cons. intros [->|?%elem_of_nil]%elem_of_cons; [left|done].
  - rewrite !(chars_cons c'). intros [->|H]%elem_of_cons; [left|].
    right. by apply IH.
Qed.

Lemma strip_chars (s : string) (c : ascii) :
  c ∈ chars (PyStr.strip s) -> c ∈ chars s.
Proof. intros H. by apply lstrip_chars, rstrip_chars. Qed.

(** No line of [splitlines] holds a line boundary. *)
Lemma splitlines_no_break (s : string) :
  Forall (fun l => Forall (fun c => PyStr.is_linebreak c = false) (chars l))
         (PyStr.splitlines s).
Proof.
  enough (H : Forall (fun l => Forall (fun c => PyStr.is_linebreak c = false) (chars l))
                     (PyStr.splitlines s)
              /\ forall c,
                   Forall (fun l => Forall (fun c => PyStr.is_linebreak c = false) (chars l))
                          (PyStr.splitlines (String c s))) by apply H.
  assert (Hgrow : forall c ls,
            PyStr.is_linebreak c = false ->
            Forall (fun l => Forall (fun c => PyStr.is_linebreak c = false) (chars l)) ls ->
            Forall (fun l => Forall (fun c => PyStr.is_linebreak c = false) (chars l))
                   (match ls with
                    | [] => [String c EmptyString]
                    | h :: t => String c h :: t
                    end)).
  { intros c [|h t] Hc Hls.
    - repeat constructor. done.
    - apply Forall_cons in Hls as [Hh Ht]. constructor; [|done].
      rewrite chars_cons. by constructor. }
  induction s as [|c' s [IH1 IH2]].
  - split; [constructor|]. intros c.
    change (PyStr.splitlines (String c EmptyString)) with
      (if PyStr.is_cr c then [EmptyString]
       else if PyStr.is_linebreak c then [EmptyString]
       else [String c EmptyString]).
    destruct (PyStr.is_cr c); [repeat constructor|].
    destruct (PyStr.is_linebreak c) eqn:Hlb; [repeat constructor|].
    by apply (Hgrow c []).
  - split; [apply IH2|]. intros c.
    change (PyStr.splitlines (String c (String c' s))) with
      (if PyStr.is_cr c then
         if PyStr.is_lf c' then EmptyString :: PyStr.splitlines s
         else EmptyString :: PyStr.splitlines (String c' s)
       else if PyStr.is_linebreak c then EmptyString :: PyStr.splitlines (String c' s)
       else match PyStr.splitlines (String c' s) with
            | [] => [String c EmptyString]
            | h :: t => String c h :: t
            end).
    destruct (PyStr.is_cr c).
    + destruct (PyStr.is_lf c'); (constructor; [constructor | auto]).
    + destruct (PyStr.is_linebreak c) eqn:Hlb.
      * constructor; [constructor | auto].
      * by apply Hgrow.
Qed.

Lemma entities_shape (ui : widgets) :
  Forall (fun e => e <> EmptyString
                   /\ PyStr.strip e = e
                   /\ Forall (fun c => PyStr.is_linebreak c = false) (chars e))
         (entities ui).
Proof.
  unfold entities. apply Forall_fmap, Forall_forall. intros l Hl.
  apply list_elem_of_filter in Hl as [Hne Hl]. simpl. split; [|split].
  - by apply nonempty_true.
  - apply strip_idem.
  - pose proof (splitlines_no_break (names_input ui)) as Hall.
    rewrite Forall_forall in Hall. specialize (Hall l Hl).
    rewrite Forall_forall in Hall. apply Forall_forall.
    intros c Hc. by apply Hall, strip_chars.
Qed.

(** X1: every entity is a non-empty text without whitespace at either
    end and without a line boundary inside. *)
Theorem entities_are_trimmed_lines (ui : widgets) :
  Forall (fun e => e <> EmptyString
                   /\ PyStr.strip e = e
                   /\ Forall (fun c => PyStr.is_linebreak c = false) (chars e))
         (entities ui).
Proof. apply entities_shape. Qed.

(** X2: the entity list is empty exactly when the text area, stripped,
    is empty, so the second guard of the main block is the test for an
    empty entity list. *)
Theorem guard_tests_entities (ui : widgets) :
  entities ui = [] <-> PyStr.strip (names_input ui) = EmptyString.
Proof.
  rewrite entities_nil.
  destruct (PyStr.strip (names_input ui)); simpl; split; congruence.
Qed.

Lemma split_no_sep (sep : ascii) (s : string) :
  Forall (fun p => sep ∉ chars p) (PyStr.split sep s).
Proof.
  induction s as [|c s IH]; simpl.
  - repeat constructor. by intros ?%elem_of_nil.
  - destruct (Ascii.eqb c sep) eqn:Hc.
    + constructor; [by intros ?%elem_of_nil | done].
    + apply Ascii.eqb_neq in Hc.
      destruct (PyStr.split sep s) as [|h t].
      * repeat constructor. rewrite chars_cons.
        intros [->|?%elem_of_nil]%elem_of_cons; done.
      * apply Forall_cons in IH as [Hh Ht]. constructor; [|done].
        rewrite chars_cons. intros [->|?]%elem_of_cons; done.
Qed.

(** A visible character between the separators is a visible character
    of one of the pieces. *)
Lemma split_nonspace (sep : ascii) (s : string) :
  existsb PyStr.has_nonspace (PyStr.split sep s)
  = existsb (fun c => negb (PyStr.isspace c) && negb (Ascii.eqb c sep)) (chars s).
Proof.
  induction s as [|c s IH]; [done|].
  rewrite chars_cons. simpl existsb at 2. rewrite <- IH. simpl PyStr.split.
  destruct (Ascii.eqb c sep).
  - by rewrite andb_false_r.
  - rewrite andb_true_r.
    destruct (PyStr.split sep s) as [|h t]; simpl existsb;
      rewrite has_nonspace_cons; [by rewrite !orb_false_r | by rewrite orb_assoc].
Qed.

Lemma stripped_nil (ls : list string) :
  map PyStr.strip (filter (fun n => PyStr.nonempty (PyStr.strip n) = true) ls) = []
  <-> existsb PyStr.has_nonspace ls = false.
Proof.
  induction ls as [|l ls IH]; [done|].
  rewrite filter_cons. simpl existsb. rewrite <- nonempty_strip.
  destruct (decide (PyStr.nonempty (PyStr.strip l) = true)) as [Hl|Hl].
  - rewrite Hl. simpl. split; discriminate.
  - apply not_true_is_false in Hl. rewrite Hl. simpl. apply IH.
Qed.

Lemma custom_keywords_eq (ui : widgets) :
  custom_keywords ui
  = map PyStr.strip
      (filter (fun kw => PyStr.nonempty (PyStr.strip kw) = true)
              (PyStr.split ","%char (custom_kw ui))).
Proof. unfold custom_keywords, negative_keywords. by rewrite drop_app_length. Qed.

Lemma custom_keywords_shape (ui : widgets) :
  Forall (fun kw => kw <> EmptyString
                    /\ PyStr.strip kw = kw
                    /\ ","%char ∉ chars kw)
         (custom_keywords ui).
Proof.
  rewrite custom_keywords_eq.
  apply Forall_fmap, Forall_forall. intros p Hp.
  apply list_elem_of_filter in Hp as [Hne Hp]. simpl. split; [|split].
  - by apply nonempty_true.
  - apply strip_idem.
  - pose proof (split_no_sep ","%char (custom_kw ui)) as Hall.
    rewrite Forall_forall in Hall. intros Hin. by apply (Hall p Hp), strip_chars.
Qed.

(** X3: the keyword list of a run is the built-in list followed by the
    user's keywords, and each of these is non-empty, has no whitespace at
    either end and holds no comma. *)
Theorem keywords_are_builtin_then_custom (ui : widgets) :
  negative_keywords ui = DEFAULT_NEGATIVE_KEYWORDS ++ custom_keywords ui
  /\ Forall (fun kw => kw <> EmptyString
                       /\ PyStr.strip kw = kw
                       /\ ","%char ∉ chars kw)
            (custom_keywords ui).
Proof.
  split; [|apply custom_keywords_shape].
  unfold custom_keywords, negative_keywords. by rewrite drop_app_length.
Qed.

(** X4: the user adds no keyword exactly when the keyword field holds
    nothing but whitespace and commas. *)
Theorem no_custom_keywords_iff (ui : widgets) :
  negative_keywords ui = DEFAULT_NEGATIVE_KEYWORDS
  <-> Forall (fun c => PyStr.isspace c = true \/ c = ","%char) (chars (custom_kw ui)).
Proof.
  transitivity (custom_keywords ui = []).
  - unfold custom_keywords, negative_keywords.
    rewrite drop_app_length. split.
    + intros H. rewrite <- (app_nil_r DEFAULT_NEGATIVE_KEYWORDS) in H at 2.
      by apply app_inv_head in H.
    + intros ->. by rewrite app_nil_r.
  - rewrite custom_keywords_eq, stripped_nil, split_nonspace.
    generalize (chars (custom_kw ui)). intros cs.
    induction cs as [|c cs IH]; [by split; [constructor|]|].
    simpl existsb. rewrite orb_false_iff, IH, Forall_cons.
    apply and_iff_compat_r.
    rewrite andb_false_iff, !negb_false_iff, Ascii.eqb_eq. done.
Qed.

Lemma splitlines_line (e rest : string) :
  Forall (fun c => PyStr.is_linebreak c = false) (chars e) ->
  PyStr.splitlines (e +:+ newline +:+ rest) = e :: PyStr.splitlines rest.
Proof.
  induction e as [|c e IH]; intros Hall; [done|].
  rewrite chars_cons in Hall. apply Forall_cons in Hall as [Hc Hall].
  rewrite append_cons.
  assert (Hcr : PyStr.is_cr c = false).
  { destruct (PyStr.is_cr c) eqn:H; [|done]. apply cr_linebreak in H. congruence. }
  transitivity (match PyStr.splitlines (e +:+ newline +:+ rest) with
                | [] => [String c EmptyString]
                | h :: t => String c h :: t
                end).
  - destruct (e +:+ newline +:+ rest) eqn:Heq; simpl; by rewrite Hcr, Hc.
  - by rewrite (IH Hall).
Qed.

Lemma splitlines_last (e : string) :
  e <> EmptyString ->
  Forall (fun c => PyStr.is_linebreak c = false) (chars e) ->
  PyStr.splitlines e = [e].
Proof.
  induction e as [|c e IH]; intros Hne Hall; [done|].
  rewrite chars_cons in Hall. apply Forall_cons in Hall as [Hc Hall].
  assert (Hcr : PyStr.is_cr c = false).
  { destruct (PyStr.is_cr c) eqn:H; [|done]. apply cr_linebreak in H. congruence. }
  transitivity (match PyStr.splitlines e with
                | [] => [String c EmptyString]
                | h :: t => String c h :: t
                end).
  - destruct e; simpl; by rewrite Hcr, Hc.
  - destruct e as [|c' e]; [done|]. by rewrite IH.
Qed.

Lemma splitlines_join (es : list string) :
  Forall (fun e => e <> EmptyString
                   /\ Forall (fun c => PyStr.is_linebreak c = false) (chars e)) es ->
  PyStr.splitlines (PyStr.join newline es) = es.
Proof.
  induction es as [|e es IH]; intros Hall; [done|].
  apply Forall_cons in Hall as [[Hne Hc] Hall].
  destruct es as [|e' es]; [by apply splitlines_last|].
  change (PyStr.join newline (e :: e' :: es))
    with (e +:+ newline +:+ PyStr.join newline (e' :: es)).
  by rewrite splitlines_line, IH.
Qed.

Lemma filter_trimmed (es : list string) :
  Forall (fun e => e <> EmptyString /\ PyStr.strip e = e) es ->
  map PyStr.strip (filter (fun n => PyStr.nonempty (PyStr.strip n) = true) es) = es.
Proof.
  induction es as [|e es IH]; intros Hall; [done|].
  apply Forall_cons in Hall as [[Hne He] Hall].
  rewrite filter_cons_True by (rewrite He; by apply nonempty_true).
  simpl. by rewrite He, IH.
Qed.

(** X5: the entity list is in its final form: a text area that holds
    the entities of a run, one per line, yields the same entities. *)
Theorem entities_fixed_point (ui ui' : widgets) :
  names_input ui' = PyStr.join newline (entities ui) ->
  entities ui' = entities ui.
Proof.
  intros Hnames. pose proof (entities_shape ui) as Hshape.
  unfold entities at 1. rewrite Hnames, splitlines_join.
  - apply filter_trimmed. eapply Forall_impl; [exact Hshape|].
    by intros e (? & ? & ?).
  - eapply Forall_impl; [exact Hshape|]. by intros e (? & ? & ?).
Qed.

Lemma entities_fixed_point_witness :
  entities (form "k" (PyStr.join newline (entities repeated_names)))
  = entities repeated_names.
Proof. apply entities_fixed_point. reflexivity. Defined.

Lemma split_piece (sep : ascii) (p rest : string) :
  sep ∉ chars p ->
  PyStr.split sep (p +:+ String sep rest) = p :: PyStr.split sep rest.
Proof.
  induction p as [|c p IH]; intros Hp.
  - simpl. by rewrite Ascii.eqb_refl.
  - rewrite chars_cons in Hp. apply not_elem_of_cons in Hp as [Hc Hp].
    rewrite append_cons. simpl.
    destruct (Ascii.eqb c sep) eqn:Heq; [by apply Ascii.eqb_eq in Heq|].
    by rewrite (IH Hp).
Qed.

Lemma split_last (sep : ascii) (p : string) :
  sep ∉ chars p -> PyStr.split sep p = [p].
Proof.
  induction p as [|c p IH]; intros Hp; [done|].
  rewrite chars_cons in Hp. apply not_elem_of_cons in Hp as [Hc Hp]. simpl.
  destruct (Ascii.eqb c sep) eqn:Heq; [by apply Ascii.eqb_eq in Heq|].
  by rewrite (IH Hp).
Qed.

Lemma split_join (sep : ascii) (ps : list string) :
  ps <> [] ->
  Forall (fun p => sep ∉ chars p) ps ->
  PyStr.split sep (PyStr.join (String sep EmptyString) ps) = ps.
Proof.
  induction ps as [|p ps IH]; intros Hne Hall; [done|].
  apply Forall_cons in Hall as [Hp Hall].
  destruct ps as [|p' ps]; [by apply split_last|].
  change (PyStr.join (String sep EmptyString) (p :: p' :: ps))
    with (p +:+ String sep EmptyString
          +:+ PyStr.join (String sep EmptyString) (p' :: ps)).
  rewrite append_cons, append_nil, split_piece by done.
  by rewrite IH.
Qed.

(** X6: likewise for the keywords: a keyword field that holds the
    user's keywords of a run, separated by commas, yields the same
    keyword list. *)
Theorem keywords_fixed_point (ui ui' : widgets) :
  custom_kw ui' = PyStr.join "," (custom_keywords ui) ->
  negative_keywords ui' = negative_keywords ui.
Proof.
  intros Hkw. pose proof (custom_keywords_shape ui) as Hshape.
  transitivity (DEFAULT_NEGATIVE_KEYWORDS ++ custom_keywords ui);
    [|unfold custom_keywords, negative_keywords; by rewrite drop_app_length].
  unfold negative_keywords at 1. f_equal. rewrite Hkw.
  destruct (custom_keywords ui) as [|k ks] eqn:Hks; [done|].
  rewrite split_join.
  - apply filter_trimmed. eapply Forall_impl; [exact Hshape|].
    by intros p (? & ? & ?).
  - done.
  - eapply Forall_impl; [exact Hshape|]. by intros p (? & ? & ?).
Qed.

Lemma keywords_fixed_point_witness :
  negative_keywords
    (with_keywords (PyStr.join "," (custom_keywords
                                      (with_keywords " cease and desist ,, shutdown"))))
  = negative_keywords (with_keywords " cease and desist ,, shutdown").
Proof. apply keywords_fixed_point. reflexivity. Defined.

(** ** More on the query *)

Lemma append_length (s t : string) :
  String.length (s +:+ t) = (String.length s + String.length t)%nat.
Proof. induction s as [|c s IH]; [done|]. rewrite append_cons. simpl. by rewrite IH. Qed.

Lemma append_cancel_r (s1 s2 t : string) : s1 +:+ t = s2 +:+ t -> s1 = s2.
Proof.
  intros H.
  assert (Hlen : String.length s1 = String.length s2).
  { apply (f_equal String.length) in H. rewrite !append_length in H. lia. }
  revert s2 H Hlen. induction s1 as [|c s1 IH]; intros [|c2 s2] H Hlen; try done.
  rewrite !append_cons in H. injection H as -> H. f_equal.
  apply IH; [done | by injection Hlen].
Qed.

(** X7: for the same keywords, different entities get different
    queries. *)
Theorem build_query_entity_inj (e1 e2 : string) (keywords : list string) :
  build_query e1 keywords = build_query e2 keywords -> e1 = e2.
Proof.
  unfold build_query. rewrite !append_cons. intros [= H].
  by apply append_cancel_r in H.
Qed.

Lemma build_query_entity_inj_witness : "Acme LLC" = "Acme LLC".
Proof. apply (build_query_entity_inj _ _ ["scam"; "fraud"]). reflexivity. Defined.

(** X8: keywords are joined without quoting, so the query does not keep
    their boundaries: two keywords give the query of the one keyword
    that spells them with [ OR ] in between. *)
Theorem build_query_merges_keywords (entity k1 k2 : string) (more : list string) :
  build_query entity (k1 :: k2 :: more)
  = build_query entity ((k1 +:+ " OR " +:+ k2) :: more).
Proof.
  unfold build_query. do 3 f_equal.
  rewrite !join_cons. simpl foldr. by rewrite !append_assoc.
Qed.

(** ** More on rows *)

(** X9: an article is flattened into a row exactly when it is a
    dictionary whose [source] is absent or a dictionary and whose
    [publishedAt] is false, a string or a list; every other article
    raises. *)
Theorem make_row_succeeds_iff (entity : string) (art : pyval) :
  (exists r, make_row entity art = Ok r)
  <-> exists d,
        art = PyDict d
        /\ (d !! "source" = None \/ exists sd, d !! "source" = Some (PyDict sd))
        /\ (truthy (field d "publishedAt") = false
            \/ (exists s, d !! "publishedAt" = Some (PyText s))
            \/ (exists l, d !! "publishedAt" = Some (PyList l))).
Proof.
  split.
  - intros [r Hr]. destruct art as [| | | | |d]; try done.
    exists d. split; [done|]. unfold make_row, field in *. simpl in Hr.
    split.
    + destruct (d !! "source") as [[| | | | |sd]|]; try done; eauto.
    + destruct (py_get _ "name" _); simpl in Hr; [|done].
      destruct (d !! "publishedAt") as [p|]; [|by left].
      destruct (truthy p) eqn:Hp; [|by left]. right.
      destruct p; simpl in Hr; try done; eauto.
  - intros (d & -> & Hsrc & Hpub). unfold make_row, field in *. simpl.
    assert (Hname : exists n, py_get (match d !! "source" with
                                      | Some x => x
                                      | None => PyDict ∅
                                      end) "name" PyNone = Ok n).
    { destruct Hsrc as [->|[sd ->]]; simpl; eauto. }
    destruct Hname as [n ->]. simpl.
    destruct Hpub as [Hf|[[s Hs]|[l Hl]]].
    + rewrite Hf. simpl. eauto.
    + rewrite Hs. destruct (truthy (PyText s)); simpl; eauto.
    + rewrite Hl. destruct (truthy (PyList l)); simpl; eauto.
Qed.

(** X10: the row of an article carries the entity it was found for, and
    the title, the URL and the name of the source as the article has
    them, null where the article has none. *)
Theorem make_row_passes_fields (entity : string) (d : gmap string pyval) (r : row) :
  make_row entity (PyDict d) = Ok r ->
  Entity r = entity
  /\ Title r = field d "title"
  /\ URL r = field d "url"
  /\ Source r = match d !! "source" with
                | Some (PyDict sd) => field sd "name"
                | _ => PyNone
                end.
Proof.
  unfold make_row, field. simpl.
  destruct (d !! "source") as [[| | | | |sd]|]; try done; simpl;
    (destruct (truthy _); simpl;
     [destruct (py_slice10 _); simpl; [|done]|]; by intros [= <-]).
Qed.

Lemma make_row_passes_fields_witness :
  Entity sued_row = "a@x.com"
  /\ Title sued_row = field sued_fields "title"
  /\ URL sued_row = field sued_fields "url"
  /\ Source sued_row = match sued_fields !! "source" with
                       | Some (PyDict sd) => field sd "name"
                       | _ => PyNone
                       end.
Proof. apply make_row_passes_fields. vm_compute. reflexivity. Defined.


Section PageFacts.

Context {World : Type}.
Variable utcnow : World -> Z.
Variable get_everything : string -> request -> World -> reply * World.
Variable ui : widgets.

Local Abbreviation body key := (search_and_flatten utcnow get_everything ui key).
Local Abbreviation kws := (negative_keywords ui).

Lemma with_rows_nil (s : page World) : with_rows s [] = s.
Proof. destruct s. unfold with_rows. simpl. by rewrite app_nil_r. Qed.

Lemma with_rows_app (s : page World) (r1 r2 : list row) :
  with_rows (with_rows s r1) r2 = with_rows s (r1 ++ r2).
Proof. unfold with_rows. simpl. by rewrite app_assoc. Qed.

Lemma for_each_app {A} (l1 l2 : list A) (f : A -> M World unit) (s s1 : page World) :
  for_each l1 f s = (Done tt, s1) ->
  for_each (l1 ++ l2) f s = for_each l2 f s1.
Proof.
  revert s. induction l1 as [|x l1 IH]; intros s; simpl.
  - unfold ret. by intros [= <-].
  - unfold bind. destruct (f x s) as [[[]| |] s']; try done. apply IH.
Qed.

Lemma flatten_step (entity : string) (art : pyval) (arts : list pyval)
    (s : page World) :
  for_each (art :: arts) (fun art => bind (lift (make_row entity art)) append_row) s
  = match make_row entity art with
    | Ok r =>
        for_each arts (fun art => bind (lift (make_row entity art)) append_row)
                 (with_rows s [r])
    | Raise exc => (Raised exc, s)
    end.
Proof.
  simpl. unfold bind at 1. unfold bind at 1. unfold lift at 1.
  by destruct (make_row entity art).
Qed.

(** The inner loop appends the flattened articles one by one, or stops at
    the first article that cannot be flattened. *)
Lemma flatten_loop (entity : string) (arts : list pyval) (s : page World) :
  match rmap (make_row entity) arts with
  | Ok rows =>
      for_each arts (fun art => bind (lift (make_row entity art)) append_row) s
      = (Done tt, with_rows s rows)
  | Raise exc =>
      exists rows,
      for_each arts (fun art => bind (lift (make_row entity art)) append_row) s
      = (Raised exc, with_rows s rows)
  end.
Proof.
  revert s. induction arts as [|art arts IH]; intros s.
  - simpl. unfold ret. by rewrite with_rows_nil.
  - rewrite flatten_step. simpl rmap.
    destruct (make_row entity art) as [r|exc]; simpl.
    + specialize (IH (with_rows s [r])).
      destruct (rmap (make_row entity) arts) as [rows|exc]; simpl.
      * by rewrite IH, with_rows_app.
      * destruct IH as [rows IH]. exists (r :: rows).
        by rewrite IH, with_rows_app.
    + exists []. by rewrite with_rows_nil.
Qed.

(** [search_entity] makes one call with the request of [request_for],
    returns the article list of the reply and never lets an exception of
    the call escape. *)
Lemma search_entity_spec (entity key : string) (keywords : list string)
    (s : page World) (req : request) :
  request_for ui entity keywords (utcnow (world s)) = Ok req ->
  search_entity utcnow get_everything ui entity key keywords s
  = (Done (articles_of (get_everything key req (world s)).1),
     after_call s entity req (get_everything key req (world s)).1
                (get_everything key req (world s)).2).
Proof.
  unfold request_for, search_entity, bind, read_clock, lift.
  destruct (Date.minus_days _ _) as [day|]; simpl; [|done].
  intros [= <-]. unfold try_except, bind, client_get_everything, after_call.
  destruct (get_everything _ _ _) as [[res|exc] w]; simpl.
  - unfold lift, caught, articles_of.
    destruct (py_get res "articles" (PyList [])) as [v|exc]; simpl.
    + by rewrite app_nil_r.
    + reflexivity.
  - reflexivity.
Qed.

Lemma search_entity_overflow (entity key : string) (keywords : list string)
    (s : page World) (exc : exn) :
  request_for ui entity keywords (utcnow (world s)) = Raise exc ->
  search_entity utcnow get_everything ui entity key keywords s = (Raised exc, s).
Proof.
  unfold request_for, search_entity, bind, read_clock, lift.
  destruct (Date.minus_days _ _) as [day|]; simpl; [done|]. by intros [= <-].
Qed.

Lemma search_and_flatten_call (key entity : string) (s : page World) (req : request) :
  request_for ui entity kws (utcnow (world s)) = Ok req ->
  body key entity s
  = let r := (get_everything key req (world s)).1 in
    let s1 := after_call s entity req r (get_everything key req (world s)).2 in
    match py_iter (articles_of r) with
    | Ok arts =>
        for_each arts (fun art => bind (lift (make_row entity art)) append_row) s1
    | Raise exc => (Raised exc, s1)
    end.
Proof.
  intros Hreq. unfold search_and_flatten, bind at 1.
  rewrite (search_entity_spec _ _ _ _ _ Hreq). simpl.
  unfold bind at 1, lift at 1. by destruct (py_iter _).
Qed.

(** One turn of the main loop. *)
Lemma search_and_flatten_spec (key entity : string) (s : page World) :
  match request_for ui entity kws (utcnow (world s)) with
  | Raise exc => body key entity s = (Raised exc, s)
  | Ok req =>
      let r := (get_everything key req (world s)).1 in
      let s1 := after_call s entity req r (get_everything key req (world s)).2 in
      match entity_rows entity r with
      | Ok rows => body key entity s = (Done tt, with_rows s1 rows)
      | Raise exc => exists rows, body key entity s = (Raised exc, with_rows s1 rows)
      end
  end.
Proof.
  destruct (request_for ui entity kws (utcnow (world s))) as [req|exc] eqn:Hreq.
  - rewrite (search_and_flatten_call _ _ _ _ Hreq). simpl.
    unfold entity_rows.
    destruct (py_iter _) as [arts|exc]; simpl.
    + apply flatten_loop.
    + exists []. by rewrite with_rows_nil.
  - unfold search_and_flatten, bind at 1.
    by rewrite (search_entity_overflow _ _ _ _ _ Hreq).
Qed.


Lemma reported_cons (e : string) (es : list string) (c : request * reply)
    (log : list (request * reply)) :
  reported (e :: es) (c :: log)
  = option_list (failure_report e <$> caught c.2) ++ reported es log.
Proof. unfold reported. simpl. by destruct (caught c.2). Qed.

Lemma flattened_cons (e : string) (es : list string) (c : request * reply)
    (log : list (request * reply)) :
  flattened (e :: es) (c :: log)
  = (rows <~ entity_rows e c.2; more <~ flattened es log; Ok (rows ++ more))%result.
Proof.
  unfold flattened. simpl. destruct (entity_rows e c.2); simpl; [|done].
  by destruct (rmap _ _).
Qed.

Lemma after_call_rows (s : page World) (e : string) (req : request) (r : reply)
    (w : World) (rows : list row) :
  with_rows (after_call s e req r w) rows
  = Page World w (errors s ++ option_list (failure_report e <$> caught r))
         (calls s ++ [(req, r)]) (aggregated_rows s ++ rows).
Proof. reflexivity. Qed.

(** What every call of a run looks like, whether the run ends or breaks
    off: the calls are made for the entities in order, one each, with the
    request of [request_for] at some reading of the clock. *)
Lemma loop_calls (key : string) (es : list string) (s s' : page World)
    (f : flow unit) :
  for_each es (body key) s = (f, s') ->
  f <> Stopped /\
  exists log,
    calls s' = calls s ++ log
    /\ (length log <= length es)%nat
    /\ (f = Done tt -> length log = length es)
    /\ Forall2 (fun e c => exists now, request_for ui e kws now = Ok c.1)
               (take (length log) es) log.
Proof.
  revert s. induction es as [|e es IH]; intros s.
  - simpl. unfold ret. intros [= <- <-]. split; [done|].
    exists []. rewrite app_nil_r. repeat split; auto; by constructor.
  - simpl for_each. unfold bind at 1.
    pose proof (search_and_flatten_spec key e s) as Hturn.
    destruct (request_for ui e kws (utcnow (world s))) as [req|exc] eqn:Hreq.
    + simpl in Hturn.
      destruct (entity_rows e _) as [rows|exc].
      * rewrite Hturn, after_call_rows. intros Hrest.
        apply IH in Hrest as (Hf & log & Hcalls & Hle & Hlen & Hall).
        split; [done|]. simpl in Hcalls.
        exists ((req, (get_everything key req (world s)).1) :: log).
        rewrite Hcalls, <- app_assoc. simpl. repeat split; auto with lia.
        constructor; [eauto | done].
      * destruct Hturn as [rows ->]. rewrite after_call_rows.
        intros [= <- <-]. split; [done|]. simpl.
        exists [(req, (get_everything key req (world s)).1)]. simpl.
        repeat split; auto with lia; try done.
        constructor; [eauto | constructor].
    + rewrite Hturn. intros [= <- <-]. split; [done|].
      exists []. rewrite app_nil_r. simpl. repeat split; auto with lia; try done.
Qed.

(** What a finished loop leaves behind. *)
Lemma loop_done (key : string) (es : list string) (s s' : page World) :
  for_each es (body key) s = (Done tt, s') ->
  exists log rows,
    calls s' = calls s ++ log
    /\ length log = length es
    /\ errors s' = errors s ++ reported es log
    /\ flattened es log = Ok rows
    /\ aggregated_rows s' = aggregated_rows s ++ rows.
Proof.
  revert s. induction es as [|e es IH]; intros s.
  - simpl. unfold ret. intros [= <-]. exists [], []. by rewrite !app_nil_r.
  - simpl for_each. unfold bind at 1.
    pose proof (search_and_flatten_spec key e s) as Hturn.
    destruct (request_for ui e kws (utcnow (world s))) as [req|exc] eqn:Hreq.
    + simpl in Hturn.
      destruct (entity_rows e _) as [rows|exc] eqn:Hrows.
      * rewrite Hturn, after_call_rows. intros Hrest.
        apply IH in Hrest as (log & more & Hcalls & Hlen & Herr & Hflat & Hagg).
        simpl in Hcalls, Herr, Hagg.
        exists ((req, (get_everything key req (world s)).1) :: log), (rows ++ more).
        rewrite Hcalls, Herr, Hagg, <- !app_assoc, reported_cons, flattened_cons.
        simpl. rewrite Hrows, Hflat. simpl. by rewrite Hlen.
      * by destruct Hturn as [rows ->].
    + by rewrite Hturn.
Qed.

(** The guards of the main block. *)
Lemma main_guarded (s : page World) :
  run_search ui = true ->
  main utcnow get_everything ui s
  = if negb (PyStr.nonempty (api_key ui)) then
      (Stopped, Page World (world s)
                     (errors s ++ ["Please provide a valid NewsAPI.org key to proceed."])
                     (calls s) (aggregated_rows s))
    else if negb (PyStr.nonempty (PyStr.strip (names_input ui))) then
      (Stopped, Page World (world s)
                     (errors s ++ ["Please enter at least one e‑mail or business name."])
                     (calls s) (aggregated_rows s))
    else for_each (entities ui) (body (api_key ui))
                  (Page World (world s) (errors s) (calls s) []).
Proof.
  intros Hrun. unfold main. rewrite Hrun.
  destruct (negb (PyStr.nonempty (api_key ui))); [done|].
  by destruct (negb (PyStr.nonempty (PyStr.strip (names_input ui)))).
Qed.

Lemma main_enters (w : World) :
  run_search ui = true -> api_key ui <> EmptyString -> entities ui <> [] ->
  main utcnow get_everything ui (fresh w)
  = for_each (entities ui) (body (api_key ui)) (fresh w).
Proof.
  intros Hrun Hkey Hes. rewrite (main_guarded _ Hrun).
  destruct (api_key ui) as [|c k]; [done|]. simpl negb.
  destruct (PyStr.nonempty (PyStr.strip (names_input ui))) eqn:Hn; [done|].
  by apply entities_nil in Hn.
Qed.

(** A run that is stopped by a guard has called nothing; any other run
    is the loop over [entities]. *)
Lemma main_cases (w : World) (f : flow unit) (st : page World) :
  run_search ui = true ->
  main utcnow get_everything ui (fresh w) = (f, st) ->
  (f = Stopped /\ calls st = [])
  \/ (f <> Stopped /\ PyStr.nonempty (api_key ui) = true
      /\ for_each (entities ui) (body (api_key ui)) (fresh w) = (f, st)).
Proof.
  intros Hrun. rewrite (main_guarded _ Hrun).
  destruct (PyStr.nonempty (api_key ui)); simpl negb; cbv iota;
    [|intros [= <- <-]; by left].
  destruct (PyStr.nonempty (PyStr.strip (names_input ui))); simpl negb; cbv iota;
    [|intros [= <- <-]; by left].
  intros Hloop. right. split; [|done].
  by destruct (loop_calls _ _ _ _ _ Hloop).
Qed.

Lemma request_for_fields (entity : string) (keywords : list string) (now : Z)
    (req : request) :
  request_for ui entity keywords now = Ok req ->
  req = Request (build_query entity keywords)
                (Date.strftime_ymd (now - lookback_years ui * 365))
                "en" "relevancy" (Z.min (results_limit ui) 100).
Proof.
  unfold request_for, Date.minus_days.
  destruct (_ && _); simpl; [|done]. by intros [= <-].
Qed.

Lemma entity_rows_facts (e : string) (r : reply) (rows : list row) :
  entity_rows e r = Ok rows ->
  Forall (fun x => Entity x = e) rows /\ length rows = article_count r.
Proof.
  unfold entity_rows, article_count.
  destruct (py_iter (articles_of r)) as [arts|]; simpl; [|done].
  intros Hrows. split.
  - eapply rmap_Forall; [|done]. apply make_row_entity.
  - by apply rmap_length in Hrows.
Qed.

Lemma flattened_facts (es : list string) (log : list (request * reply))
    (rows : list row) :
  length log = length es ->
  flattened es log = Ok rows ->
  Forall (fun r => Entity r ∈ es) rows
  /\ length rows = sum_list (map (fun c => article_count c.2) log).
Proof.
  revert log rows. induction es as [|e es IH]; intros [|c log] rows Hlen; try done.
  - intros [= <-]. split; [constructor | done].
  - rewrite flattened_cons.
    destruct (entity_rows e c.2) as [r1|] eqn:H1; simpl; [|done].
    destruct (flattened es log) as [more|] eqn:H2; simpl; [|done].
    intros [= <-]. apply entity_rows_facts in H1 as [Hent Hn].
    destruct (IH log more) as [IHent IHn]; [by injection Hlen | done |].
    split.
    + apply Forall_app. split.
      * eapply Forall_impl; [exact Hent|]. intros x ->. left.
      * eapply Forall_impl; [exact IHent|]. intros x Hx. by right.
    + rewrite length_app. simpl. by rewrite Hn, IHn.
Qed.

Lemma rmap_raises {A B} (f : A -> result B) (l : list A) (x : A) (e : exn) :
  x ∈ l -> f x = Raise e -> exists e', rmap f l = Raise e'.
Proof.
  intros Hx Hf. induction l as [|y l IH]; [by apply elem_of_nil in Hx|].
  simpl. apply elem_of_cons in Hx as [<-|Hx].
  - rewrite Hf. eauto.
  - destruct (f y); simpl; [|eauto].
    destruct (IH Hx) as [e' ->]. eauto.
Qed.

Lemma request_for_in_range (entity : string) (keywords : list string) (now : Z) :
  1 <= now - lookback_years ui * 365 <= Date.MAXORDINAL ->
  request_for ui entity keywords now
  = Ok (Request (build_query entity keywords)
                (Date.strftime_ymd (now - lookback_years ui * 365))
                "en" "relevancy" (Z.min (results_limit ui) 100)).
Proof.
  intros [H1 H2]. unfold request_for, Date.minus_days.
  apply Z.leb_le in H1, H2. by rewrite H1, H2.
Qed.

(** With a clock in the range of [datetime] and a service whose articles
    can all be flattened, the loop runs to its end. *)
Lemma loop_completes (key : string) (es : list string) (s : page World) :
  (forall w, 1 <= utcnow w - lookback_years ui * 365 <= Date.MAXORDINAL) ->
  (forall e k req w, exists rows, entity_rows e (get_everything k req w).1 = Ok rows) ->
  exists st, for_each es (body key) s = (Done tt, st).
Proof.
  intros Hclock Hrows. revert s. induction es as [|e es IH]; intros s.
  - by exists s.
  - simpl for_each. unfold bind at 1.
    pose proof (search_and_flatten_spec key e s) as Hturn.
    rewrite (request_for_in_range _ _ _ (Hclock (world s))) in Hturn.
    simpl in Hturn.
    destruct (Hrows e key
                (Request (build_query e kws)
                   (Date.strftime_ymd (utcnow (world s) - lookback_years ui * 365))
                   "en" "relevancy" (Z.min (results_limit ui) 100))
                (world s)) as [rows Hr].
    rewrite Hr in Hturn. rewrite Hturn. apply IH.
Qed.

Lemma run_completes (w : World) :
  run_search ui = true -> api_key ui <> EmptyString -> entities ui <> [] ->
  (forall w, 1 <= utcnow w - lookback_years ui * 365 <= Date.MAXORDINAL) ->
  (forall e k req w, exists rows, entity_rows e (get_everything k req w).1 = Ok rows) ->
  exists st, main utcnow get_everything ui (fresh w) = (Done tt, st).
Proof.
  intros Hrun Hkey Hes Hclock Hrows. rewrite (main_enters w Hrun Hkey Hes).
  by apply loop_completes.
Qed.

(** ** Runs of the page *)

(** C1: when the search call for an entity raises, the run shows a
    report naming the entity and the error, adds no row for it and goes
    on with the remaining entities; a run that then finishes holds the
    rows of the other entities and the report. *)
Theorem failed_search_is_contained (w w' : World) (pre post : list string)
    (E : string) (s1 : page World) (req : request) (exc : exn) :
  run_search ui = true -> api_key ui <> EmptyString ->
  entities ui = pre ++ E :: post ->
  for_each pre (body (api_key ui)) (fresh w) = (Done tt, s1) ->
  request_for ui E kws (utcnow (world s1)) = Ok req ->
  get_everything (api_key ui) req (world s1) = (Raise exc, w') ->
  let s2 := Page World w' (errors s1 ++ [failure_report E exc])
                 (calls s1 ++ [(req, Raise exc)]) (aggregated_rows s1) in
  main utcnow get_everything ui (fresh w) = for_each post (body (api_key ui)) s2
  /\ forall st,
       main utcnow get_everything ui (fresh w) = (Done tt, st) ->
       failure_report E exc ∈ errors st
       /\ exists log rows_pre rows_post,
            calls st = calls s1 ++ (req, Raise exc) :: log
            /\ length log = length post
            /\ flattened pre (calls s1) = Ok rows_pre
            /\ flattened post log = Ok rows_post
            /\ aggregated_rows st = rows_pre ++ rows_post.
Proof.
  intros Hrun Hkey Hes Hpre Hreq Hget s2.
  assert (Hmain : main utcnow get_everything ui (fresh w)
                  = for_each post (body (api_key ui)) s2).
  { rewrite (main_enters w Hrun Hkey), Hes by (rewrite Hes; by destruct pre).
    rewrite (for_each_app _ _ _ _ _ Hpre). simpl for_each. unfold bind at 1.
    pose proof (search_and_flatten_spec (api_key ui) E s1) as Hturn.
    rewrite Hreq, Hget in Hturn. simpl in Hturn.
    rewrite Hturn, with_rows_nil. reflexivity. }
  split; [exact Hmain|]. intros st Hdone. rewrite Hmain in Hdone.
  apply loop_done in Hdone as (log & rows_post & Hc & Hl & He & Hf & Ha).
  apply loop_done in Hpre as (log0 & rows_pre & Hc0 & _ & _ & Hf0 & Ha0).
  simpl in Hc, He, Ha, Hc0, Ha0. split.
  - rewrite He. apply elem_of_app. left. apply elem_of_app. right. left.
  - exists log, rows_pre, rows_post.
    rewrite Hc, <- app_assoc, Ha, Ha0, Hc0. done.
Qed.

(** C4: in a finished run every entity has its call, and the table is
    the concatenation, entity by entity in input order, of the rows
    flattened from the articles of the reply in reply order.  So every
    row carries an entity of the input, the number of rows is the number
    of articles over all calls, and a reply with no article gives no row
    and no report. *)
Theorem rows_are_concatenated (w : World) (st : page World) :
  run_search ui = true ->
  main utcnow get_everything ui (fresh w) = (Done tt, st) ->
  length (calls st) = length (entities ui)
  /\ flattened (entities ui) (calls st) = Ok (aggregated_rows st)
  /\ Forall (fun r => Entity r ∈ entities ui) (aggregated_rows st)
  /\ length (aggregated_rows st)
     = sum_list (map (fun c => article_count c.2) (calls st))
  /\ errors st = reported (entities ui) (calls st)
  /\ forall e req res,
       (e, (req, Ok res)) ∈ zip (entities ui) (calls st) ->
       py_get res "articles" (PyList []) = Ok (PyList []) ->
       entity_rows e (Ok res) = Ok [] /\ caught (Ok res) = None.
Proof.
  intros Hrun Hmain.
  destruct (main_cases w _ _ Hrun Hmain) as [[? _]|(_ & _ & Hloop)]; [done|].
  apply loop_done in Hloop as (log & rows & Hc & Hl & He & Hf & Ha).
  simpl in Hc, He, Ha. subst log. rewrite Ha, He, Hl.
  destruct (flattened_facts _ _ _ Hl Hf) as [Hent Hn].
  do 5 (split; [done|]). intros e req res _ Hnone.
  unfold entity_rows, articles_of, caught. by rewrite Hnone.
Qed.

(** C6: [search_entity] calls the client once, with the query of
    [build_query], the day 365 days times the look-back years before
    today written as year-month-day, language [en], sorting by relevancy
    and the smaller of the requested limit and 100 as page size; every
    call of a run has this shape. *)
Theorem search_parameters (key entity : string) (keywords : list string)
    (s : page World) (w : World) (f : flow unit) (st : page World) :
  1 <= utcnow (world s) - lookback_years ui * 365 <= Date.MAXORDINAL ->
  main utcnow get_everything ui (fresh w) = (f, st) ->
  let req := Request (build_query entity keywords)
                     (Date.strftime_ymd (utcnow (world s) - lookback_years ui * 365))
                     "en" "relevancy" (Z.min (results_limit ui) 100) in
  let out := search_entity utcnow get_everything ui entity key keywords s in
  (calls out.2 = calls s ++ [(req, (get_everything key req (world s)).1)]
   /\ world out.2 = (get_everything key req (world s)).2)
  /\ Forall (fun c =>
       exists e now,
         e ∈ entities ui
         /\ c.1 = Request (build_query e kws)
                          (Date.strftime_ymd (now - lookback_years ui * 365))
                          "en" "relevancy" (Z.min (results_limit ui) 100))
       (calls st).
Proof.
  intros Hrange Hmain req out. split.
  - assert (Hreq : request_for ui entity keywords (utcnow (world s)) = Ok req).
    { unfold request_for, Date.minus_days.
      destruct Hrange as [H1 H2].
      apply Z.leb_le in H1, H2. by rewrite H1, H2. }
    subst out. by rewrite (search_entity_spec _ _ _ _ _ Hreq).
  - destruct (run_search ui) eqn:Hrun; cycle 1.
    { unfold main in Hmain. rewrite Hrun in Hmain. injection Hmain as <- <-.
      constructor. }
    destruct (main_cases w _ _ Hrun Hmain) as [[_ ->]|(_ & _ & Hloop)];
      [constructor|].
    apply loop_calls in Hloop as (_ & log & Hc & _ & _ & Hall).
    simpl in Hc. subst log.
    apply Forall_forall. intros c Hin.
    apply list_elem_of_lookup in Hin as [i Hi].
    destruct (Forall2_lookup_r _ _ _ _ _ Hall Hi) as (e & He & now & Hreq).
    exists e, now. split.
    + apply lookup_take_Some in He as [He _].
      by apply list_elem_of_lookup_2 in He.
    + by apply request_for_fields.
Qed.

(** C7: the calls of a run are made for the non-blank lines of the text
    area, trimmed, in their order and with repetitions; a finished run
    has made exactly one call per such line. *)
Theorem one_search_per_nonblank_line (w : World) (f : flow unit) (st : page World) :
  run_search ui = true ->
  main utcnow get_everything ui (fresh w) = (f, st) ->
  let lines := filter (fun n => PyStr.nonempty (PyStr.strip n) = true)
                      (PyStr.splitlines (names_input ui)) in
  map (fun c => q c.1) (calls st)
  = map (fun n => build_query (PyStr.strip n) kws) (take (length (calls st)) lines)
  /\ (f = Done tt -> length (calls st) = length lines).
Proof.
  intros Hrun Hmain lines.
  destruct (main_cases w _ _ Hrun Hmain) as [[-> ->]|(_ & _ & Hloop)];
    [by split|].
  apply loop_calls in Hloop as (_ & log & Hc & _ & Hlen & Hall).
  simpl in Hc. subst log. split.
  - change (entities ui) with (map PyStr.strip lines) in Hall.
    clearbody lines. revert Hall. generalize (calls st). clear. intros log.
    revert lines. induction log as [|c log IH]; intros lines Hall; [done|].
    destruct lines as [|l lines]; simpl in Hall; [by inversion Hall|].
    apply Forall2_cons in Hall as [[now Hreq] Hall]. simpl.
    apply request_for_fields in Hreq. rewrite Hreq at 1. simpl. f_equal.
    by apply IH.
  - intros Hf. rewrite (Hlen Hf). unfold entities. by rewrite length_map.
Qed.

(** C8: with an empty key or an empty entity list the run shows an
    input error and stops; the client has not been called and the world
    is as before. *)
Theorem input_errors_stop (s : page World) :
  run_search ui = true ->
  api_key ui = EmptyString \/ entities ui = [] ->
  exists msg,
    main utcnow get_everything ui s
    = (Stopped, Page World (world s) (errors s ++ [msg]) (calls s)
                     (aggregated_rows s)).
Proof.
  intros Hrun Hbad. rewrite (main_guarded _ Hrun).
  destruct (PyStr.nonempty (api_key ui)) eqn:Hkey; simpl negb; cbv iota; [|eauto].
  destruct Hbad as [Hk|Hes]; [by rewrite Hk in Hkey|].
  apply entities_nil in Hes. rewrite Hes. simpl. eauto.
Qed.

(** C9: an article whose [source] is there and null cannot be flattened:
    the [get] on [None] raises.  Nothing catches the exception, so the
    run ends with it right after the call that returned the article, and
    no later entity is searched. *)
Theorem null_source_aborts (w w' : World) (pre rest : list string) (E : string)
    (s : page World) (req : request) (res : pyval) (arts : list pyval)
    (d : gmap string pyval) :
  run_search ui = true -> api_key ui <> EmptyString ->
  entities ui = pre ++ E :: rest ->
  for_each pre (body (api_key ui)) (fresh w) = (Done tt, s) ->
  request_for ui E kws (utcnow (world s)) = Ok req ->
  get_everything (api_key ui) req (world s) = (Ok res, w') ->
  py_get res "articles" (PyList []) = Ok (PyList arts) ->
  PyDict d ∈ arts ->
  d !! "source" = Some PyNone ->
  make_row E (PyDict d) = Raise (AttributeError PyNone "get")
  /\ exists exc rows,
       main utcnow get_everything ui (fresh w)
       = (Raised exc, Page World w' (errors s) (calls s ++ [(req, Ok res)])
                           (aggregated_rows s ++ rows)).
Proof.
  intros Hrun Hkey Hes Hpre Hreq Hget Harts Hin Hsrc.
  assert (Hrow : make_row E (PyDict d) = Raise (AttributeError PyNone "get")).
  { unfold make_row. simpl. by rewrite Hsrc. }
  split; [exact Hrow|].
  destruct (rmap_raises _ _ _ _ Hin Hrow) as [exc Hexc].
  rewrite (main_enters w Hrun Hkey), Hes by (rewrite Hes; by destruct pre).
  rewrite (for_each_app _ _ _ _ _ Hpre). simpl for_each. unfold bind at 1.
  pose proof (search_and_flatten_spec (api_key ui) E s) as Hturn.
  rewrite Hreq, Hget in Hturn. simpl in Hturn.
  unfold entity_rows, articles_of in Hturn. rewrite Harts in Hturn.
  simpl in Hturn. rewrite Hexc in Hturn. destruct Hturn as [rows ->].
  exists exc, rows. unfold with_rows, after_call, caught. simpl.
  by rewrite Harts, app_nil_r.
Qed.

(** ** Runs that break off, and runs without rows *)

Lemma replay_app (key : string) (l1 l2 : list request) (w : World) :
  replay get_everything key (l1 ++ l2) w
  = let '(r1, w1) := replay get_everything key l1 w in
    let '(r2, w2) := replay get_everything key l2 w1 in
    (r1 ++ r2, w2).
Proof.
  revert w. induction l1 as [|req l1 IH]; intros w; simpl.
  - by destruct (replay get_everything key l2 w).
  - destruct (get_everything key req w) as [r w1]. rewrite IH.
    destruct (replay get_everything key l1 w1) as [r1 w2].
    by destruct (replay get_everything key l2 w2).
Qed.

Lemma flatten_any (entity : string) (arts : list pyval) (s s' : page World)
    (f : flow unit) :
  for_each arts (fun art => bind (lift (make_row entity art)) append_row) s = (f, s') ->
  f <> Stopped
  /\ exists rows, s' = with_rows s rows /\ Forall (fun r => Entity r = entity) rows.
Proof.
  revert s. induction arts as [|art arts IH]; intros s.
  - simpl. unfold ret. intros [= <- <-]. split; [done|].
    exists []. by rewrite with_rows_nil.
  - rewrite flatten_step.
    destruct (make_row entity art) as [r|exc] eqn:Hrow.
    + intros H. apply IH in H as (Hf & rows & -> & Hall). split; [done|].
      exists (r :: rows). rewrite with_rows_app. split; [done|].
      constructor; [by apply make_row_entity in Hrow | done].
    + intros [= <- <-]. split; [done|]. exists []. by rewrite with_rows_nil.
Qed.

(** One turn of the main loop, however it ends: at most one call, at
    most one report, and rows of this entity only. *)
Lemma turn_any (key entity : string) (s s' : page World) (f : flow unit) :
  body key entity s = (f, s') ->
  f <> Stopped
  /\ exists log errs rows,
       calls s' = calls s ++ log
       /\ errors s' = errors s ++ errs
       /\ aggregated_rows s' = aggregated_rows s ++ rows
       /\ (length errs <= length log <= 1)%nat
       /\ Forall (fun r => Entity r = entity) rows
       /\ replay get_everything key (map fst log) (world s) = (map snd log, world s').
Proof.
  destruct (request_for ui entity kws (utcnow (world s))) as [req|exc] eqn:Hreq.
  - rewrite (search_and_flatten_call _ _ _ _ Hreq). simpl.
    destruct (get_everything key req (world s)) as [r w1] eqn:Hget. simpl.
    assert (Hcall : forall rows,
              Forall (fun x => Entity x = entity) rows ->
              exists log errs rows0,
                calls (with_rows (after_call s entity req r w1) rows) = calls s ++ log
                /\ errors (with_rows (after_call s entity req r w1) rows)
                   = errors s ++ errs
                /\ aggregated_rows (with_rows (after_call s entity req r w1) rows)
                   = aggregated_rows s ++ rows0
                /\ (length errs <= length log <= 1)%nat
                /\ Forall (fun r => Entity r = entity) rows0
                /\ replay get_everything key (map fst log) (world s)
                   = (map snd log,
                      world (with_rows (after_call s entity req r w1) rows))).
    { intros rows Hall.
      exists [(req, r)], (option_list (failure_report entity <$> caught r)), rows.
      simpl. rewrite Hget. repeat split; try done.
      destruct (caught r); simpl; lia. }
    destruct (py_iter (articles_of r)) as [arts|exc].
    + intros H. apply flatten_any in H as (Hf & rows & -> & Hall).
      split; [done|]. by apply Hcall.
    + intros [= <- <-]. split; [done|].
      rewrite <- (with_rows_nil (after_call s entity req r w1)).
      apply Hcall. constructor.
  - pose proof (search_and_flatten_spec key entity s) as H.
    rewrite Hreq in H. rewrite H. intros [= <- <-]. split; [done|].
    exists [], [], []. rewrite !app_nil_r. simpl. repeat split; try done; lia.
Qed.

(** The loop, however it ends. *)
Lemma loop_any (key : string) (es : list string) (s s' : page World)
    (f : flow unit) :
  for_each es (body key) s = (f, s') ->
  exists log errs rows,
    calls s' = calls s ++ log
    /\ errors s' = errors s ++ errs
    /\ aggregated_rows s' = aggregated_rows s ++ rows
    /\ (length errs <= length log <= length es)%nat
    /\ Forall (fun r => Entity r ∈ es) rows
    /\ replay get_everything key (map fst log) (world s) = (map snd log, world s').
Proof.
  revert s. induction es as [|e es IH]; intros s.
  - simpl. unfold ret. intros [= <- <-].
    exists [], [], []. rewrite !app_nil_r. simpl. repeat split; try done; lia.
  - simpl for_each. unfold bind at 1.
    destruct (body key e s) as [f1 s1] eqn:Hturn.
    apply turn_any in Hturn as (Hf1 & log1 & errs1 & rows1 & Hc1 & He1 & Ha1
                                 & Hn1 & Hall1 & Hre1).
    assert (Hwiden : Forall (fun r => Entity r ∈ e :: es) rows1).
    { eapply Forall_impl; [exact Hall1|]. intros r ->. left. }
    destruct f1 as [[]|exc|]; [|intros [= <- <-]|done].
    + intros Hrest.
      apply IH in Hrest as (log & errs & rows & Hc & He & Ha & Hn & Hall & Hre).
      exists (log1 ++ log), (errs1 ++ errs), (rows1 ++ rows).
      rewrite Hc, He, Ha, Hc1, He1, Ha1, <- !app_assoc, !length_app.
      rewrite map_app, replay_app, Hre1, Hre, map_app. simpl.
      repeat split; try done; try lia.
      apply Forall_app. split; [done|].
      eapply Forall_impl; [exact Hall|]. intros r Hr. by right.
    + exists log1, errs1, rows1. simpl. repeat split; try done; lia.
Qed.

Lemma caught_no_articles (r : reply) (exc : exn) :
  caught r = Some exc -> articles_of r = PyList [].
Proof.
  unfold caught, articles_of. destruct r as [res|e]; [|done].
  by destruct (py_get res "articles" (PyList [])).
Qed.

(** X11: with the ranges of the slider and a clock from the year 11 on,
    [search_entity] always returns: it calls the client once, leaves the
    rows alone, and either shows nothing or shows one report and returns
    the empty list. *)
Theorem search_entity_never_raises (key entity : string) (keywords : list string)
    (s : page World) :
  widget_ranges ui ->
  3651 <= utcnow (world s) <= Date.MAXORDINAL ->
  exists v s',
    search_entity utcnow get_everything ui entity key keywords s = (Done v, s')
    /\ length (calls s') = S (length (calls s))
    /\ aggregated_rows s' = aggregated_rows s
    /\ (errors s' = errors s
        \/ (v = PyList [] /\ exists msg, errors s' = errors s ++ [msg])).
Proof.
  intros [[Hlo Hhi] _] [Hnow Hmax].
  assert (Hrange : 1 <= utcnow (world s) - lookback_years ui * 365 <= Date.MAXORDINAL)
    by lia.
  rewrite (search_entity_spec _ _ _ _ _ (request_for_in_range _ _ _ Hrange)).
  eexists _, _. split; [done|]. unfold after_call. simpl.
  rewrite length_app. simpl. split; [lia|]. split; [done|].
  destruct (caught _) as [exc|] eqn:Hc; simpl.
  - right. split; [by eapply caught_no_articles | eauto].
  - left. by rewrite app_nil_r.
Qed.

(** X12: a response without the key [articles] counts as a reply with
    no article: [search_entity] returns the empty list and shows
    nothing. *)
Theorem response_without_articles (key entity : string) (keywords : list string)
    (s : page World) (req : request) (d : gmap string pyval) (w' : World) :
  request_for ui entity keywords (utcnow (world s)) = Ok req ->
  get_everything key req (world s) = (Ok (PyDict d), w') ->
  d !! "articles" = None ->
  search_entity utcnow get_everything ui entity key keywords s
  = (Done (PyList []),
     Page World w' (errors s) (calls s ++ [(req, Ok (PyDict d))]) (aggregated_rows s)).
Proof.
  intros Hreq Hget Hnone.
  rewrite (search_entity_spec _ _ _ _ _ Hreq), Hget.
  unfold after_call, caught, articles_of. simpl. by rewrite Hnone, app_nil_r.
Qed.

(** X13: a response that is no dictionary is handled like a failed
    call: the [get] on it raises inside the [try], the report carries the
    message of that [AttributeError] and the empty list is returned. *)
Theorem response_not_a_dictionary (key entity : string) (keywords : list string)
    (s : page World) (req : request) (res : pyval) (w' : World) :
  request_for ui entity keywords (utcnow (world s)) = Ok req ->
  get_everything key req (world s) = (Ok res, w') ->
  (forall d, res <> PyDict d) ->
  search_entity utcnow get_everything ui entity key keywords s
  = (Done (PyList []),
     Page World w'
          (errors s ++ ["Error querying NewsAPI for " +:+ entity +:+ ": '"
                        +:+ type_name res +:+ "' object has no attribute 'get'"])
          (calls s ++ [(req, Ok res)]) (aggregated_rows s)).
Proof.
  intros Hreq Hget Hres.
  rewrite (search_entity_spec _ _ _ _ _ Hreq), Hget.
  unfold after_call, caught, articles_of, failure_report.
  destruct res as [| | | | |d]; try done. by destruct (Hres d).
Qed.

(** X14: when [articles] is bound to something a [for] loop cannot run
    over (null, a number, a truth value), the [TypeError] of the loop is
    not caught: the run ends with it right after the call, no row is
    added and no later entity is searched. *)
Theorem articles_not_iterable_aborts (w w' : World) (pre rest : list string)
    (E : string) (s : page World) (req : request) (res v : pyval) (exc : exn) :
  run_search ui = true -> api_key ui <> EmptyString ->
  entities ui = pre ++ E :: rest ->
  for_each pre (body (api_key ui)) (fresh w) = (Done tt, s) ->
  request_for ui E kws (utcnow (world s)) = Ok req ->
  get_everything (api_key ui) req (world s) = (Ok res, w') ->
  py_get res "articles" (PyList []) = Ok v ->
  py_iter v = Raise exc ->
  main utcnow get_everything ui (fresh w)
  = (Raised exc,
     Page World w' (errors s) (calls s ++ [(req, Ok res)]) (aggregated_rows s)).
Proof.
  intros Hrun Hkey Hes Hpre Hreq Hget Harts Hiter.
  rewrite (main_enters w Hrun Hkey), Hes
    by (rewrite Hes; by destruct pre).
  rewrite (for_each_app _ _ _ _ _ Hpre). simpl for_each. unfold bind at 1.
  rewrite (search_and_flatten_call _ _ _ _ Hreq), Hget.
  simpl. unfold articles_of. rewrite Harts, Hiter.
  unfold after_call, caught. by rewrite Harts, app_nil_r.
Qed.

(** X15: the client is called only after the button was pressed with a
    non-empty key and at least one entity. *)
Theorem calls_need_valid_input (w : World) (f : flow unit) (st : page World) :
  main utcnow get_everything ui (fresh w) = (f, st) ->
  calls st <> [] ->
  run_search ui = true /\ api_key ui <> EmptyString /\ entities ui <> [].
Proof.
  intros Hmain Hcalls.
  destruct (run_search ui) eqn:Hrun; cycle 1.
  { unfold main in Hmain. rewrite Hrun in Hmain. by injection Hmain as <- <-. }
  destruct (main_cases w _ _ Hrun Hmain)
    as [[_ ?]|(_ & Hkey & Hloop)]; [done|].
  split; [done|]. split; [by apply nonempty_true|].
  intros Hes. rewrite Hes in Hloop. by injection Hloop as <- <-.
Qed.

(** X16: however a run ends, it has made at most one call per entity
    and shown at most one report per call, unless a guard stopped it, and
    every row it has gathered carries an entity of the list. *)
Theorem run_bounds (w : World) (f : flow unit) (st : page World) :
  run_search ui = true ->
  main utcnow get_everything ui (fresh w) = (f, st) ->
  f <> Stopped ->
  (length (errors st) <= length (calls st) <= length (entities ui))%nat
  /\ Forall (fun r => Entity r ∈ entities ui) (aggregated_rows st).
Proof.
  intros Hrun Hmain Hf.
  destruct (main_cases w _ _ Hrun Hmain)
    as [[? _]|(_ & _ & Hloop)]; [done|].
  apply loop_any in Hloop as (log & errs & rows & Hc & He & Ha & Hn & Hall & _).
  simpl in Hc, He, Ha. by rewrite Hc, He, Ha.
Qed.

(** X17: when every call of a finished run failed, the run has a report
    for each entity and no row, and the page shows the message that no
    negative news was found. *)
Theorem all_failed_shows_no_news (w : World) (st : page World) :
  run_search ui = true ->
  main utcnow get_everything ui (fresh w) = (Done tt, st) ->
  Forall (fun c : request * reply => caught c.2 <> None) (calls st) ->
  length (errors st) = length (entities ui)
  /\ aggregated_rows st = []
  /\ show_results st
     = NoNews "🎉 No negative news found for any entries in the specified time window.".
Proof.
  intros Hrun Hmain Hfail.
  destruct (main_cases w _ _ Hrun Hmain)
    as [[? _]|(_ & _ & Hloop)]; [done|].
  apply loop_done in Hloop
    as (log & rows & Hc & Hl & He & Hf & Ha).
  simpl in Hc, He, Ha. subst log.
  assert (Hboth : length (reported (entities ui) (calls st)) = length (entities ui)
                  /\ rows = []).
  { revert Hl Hf Hfail. generalize (entities ui) (calls st). clear.
    intros es log. revert log rows.
    induction es as [|e es IH]; intros [|c log] rows Hlen; try done.
    - by intros [= <-].
    - rewrite flattened_cons, reported_cons.
      intros Hf [Hc Hfail]%Forall_cons.
      destruct (caught c.2) as [exc|] eqn:Hcaught; [|done].
      unfold entity_rows in Hf. rewrite (caught_no_articles _ _ Hcaught) in Hf.
      simpl in Hf.
      destruct (flattened es log) as [more|] eqn:Hmore; simpl in Hf; [|done].
      injection Hf as <-.
      destruct (IH log more) as [IHn ->]; [by injection Hlen | done | done |].
      simpl. by rewrite IHn. }
  destruct Hboth as [Hn ->]. rewrite He, Hn.
  unfold show_results. by rewrite Ha.
Qed.

(** X18: when every call of a finished run returned a dictionary with
    no article in it (no [articles] key, or an empty list), the run has
    no report and no row, and the page shows the message that no negative
    news was found. *)
Theorem no_articles_shows_no_news (w : World) (st : page World) :
  run_search ui = true ->
  main utcnow get_everything ui (fresh w) = (Done tt, st) ->
  Forall (fun c : request * reply =>
            exists d, c.2 = Ok (PyDict d)
                             /\ (d !! "articles" = None
                                 \/ d !! "articles" = Some (PyList [])))
         (calls st) ->
  errors st = []
  /\ aggregated_rows st = []
  /\ show_results st
     = NoNews "🎉 No negative news found for any entries in the specified time window.".
Proof.
  intros Hrun Hmain Hnone.
  destruct (main_cases w _ _ Hrun Hmain) as [[? _]|(_ & _ & Hloop)]; [done|].
  apply loop_done in Hloop as (log & rows & Hc & Hl & He & Hf & Ha).
  simpl in Hc, He, Ha. subst log.
  assert (Hboth : reported (entities ui) (calls st) = [] /\ rows = []).
  { revert Hl Hf Hnone. generalize (entities ui) (calls st). clear.
    intros es log. revert log rows.
    induction es as [|e es IH]; intros [|c log] rows Hlen; try done.
    - by intros [= <-].
    - rewrite flattened_cons, reported_cons.
      intros Hf [(d & Hc & Hd) Hnone]%Forall_cons.
      assert (Hcaught : caught c.2 = None /\ entity_rows e c.2 = Ok []).
      { rewrite Hc. unfold entity_rows, articles_of, caught. simpl.
        by destruct Hd as [->| ->]. }
      destruct Hcaught as [Hcaught Hrows]. rewrite Hcaught. rewrite Hrows in Hf.
      simpl in Hf.
      destruct (flattened es log) as [more|] eqn:Hmore; simpl in Hf; [|done].
      injection Hf as <-.
      destruct (IH log more) as [-> ->]; [by injection Hlen | done | done |].
      done. }
  destruct Hboth as [Hn ->]. rewrite He, Hn.
  unfold show_results. by rewrite Ha.
Qed.



End PageFacts.

(** ** Runs against the scripted service *)

Lemma failed_search_is_contained_witness :
  main scripted_clock (scripted [Raise invalid_key; response [article_sued]])
       two_names (fresh 0%nat)
  = for_each ["Acme LLC"]
      (search_and_flatten scripted_clock
         (scripted [Raise invalid_key; response [article_sued]]) two_names "k")
      (Page nat 1%nat [failure_report "a@x.com" invalid_key]
            [(request_2021 "a@x.com", Raise invalid_key)] [])
  /\ forall st,
       main scripted_clock (scripted [Raise invalid_key; response [article_sued]])
            two_names (fresh 0%nat) = (Done tt, st) ->
       failure_report "a@x.com" invalid_key ∈ errors st
       /\ exists log rows_pre rows_post,
            calls st = [] ++ (request_2021 "a@x.com", Raise invalid_key) :: log
            /\ length log = length ["Acme LLC"]
            /\ flattened [] [] = Ok rows_pre
            /\ flattened ["Acme LLC"] log = Ok rows_post
            /\ aggregated_rows st = rows_pre ++ rows_post.
Proof.
  apply (failed_search_is_contained scripted_clock
           (scripted [Raise invalid_key; response [article_sued]]) two_names
           0%nat 1%nat [] ["Acme LLC"] "a@x.com" (fresh 0%nat)
           (request_2021 "a@x.com") invalid_key);
    [ reflexivity | discriminate | vm_compute; reflexivity | reflexivity
    | vm_compute; reflexivity | reflexivity ].
Defined.

Lemma rows_are_concatenated_witness :
  let svc := scripted [response [article_sued]; response []] in
  let st := (main scripted_clock svc two_names (fresh 0%nat)).2 in
  main scripted_clock svc two_names (fresh 0%nat) = (Done tt, st)
  /\ aggregated_rows st = [sued_row]
  /\ length (calls st) = length (entities two_names)
  /\ flattened (entities two_names) (calls st) = Ok (aggregated_rows st)
  /\ errors st = reported (entities two_names) (calls st).
Proof.
  intros svc st.
  assert (Hmain : main scripted_clock svc two_names (fresh 0%nat) = (Done tt, st))
    by (vm_compute; reflexivity).
  destruct (rows_are_concatenated scripted_clock svc two_names 0%nat st
              eq_refl Hmain) as (Hlen & Hflat & _ & _ & Herr & _).
  split; [exact Hmain|]. split; [vm_compute; reflexivity|]. auto.
Defined.

Lemma search_parameters_witness :
  let svc := scripted [response []; response []] in
  let out := search_entity scripted_clock svc two_names "Acme LLC" "k" ["scam"]
                           (fresh 0%nat) in
  calls out.2
  = [(Request (build_query "Acme LLC" ["scam"]) "2021-03-02" "en" "relevancy" 25,
      response [])]
  /\ Forall (fun c => language c.1 = "en" /\ page_size c.1 = 25)
            (calls (main scripted_clock svc two_names (fresh 0%nat)).2).
Proof.
  intros svc out.
  destruct (search_parameters scripted_clock svc two_names "k" "Acme LLC" ["scam"]
              (fresh 0%nat) 0%nat
              (main scripted_clock svc two_names (fresh 0%nat)).1
              (main scripted_clock svc two_names (fresh 0%nat)).2)
    as [[Hcall _] Hall].
  - vm_compute. split; discriminate.
  - by destruct (main scripted_clock svc two_names (fresh 0%nat)).
  - split; [exact Hcall|].
    eapply Forall_impl; [exact Hall|]. by intros c (e & now & _ & ->).
Defined.

Lemma one_search_per_nonblank_line_witness :
  let svc := scripted [response []; response []; response []] in
  let st := (main scripted_clock svc repeated_names (fresh 0%nat)).2 in
  map (fun c => q c.1) (calls st)
  = map (fun e => build_query e (negative_keywords repeated_names))
        ["Acme LLC"; "Acme LLC"; "Bad Corp"]
  /\ length (calls st) = 3%nat.
Proof.
  intros svc st.
  destruct (one_search_per_nonblank_line scripted_clock svc repeated_names 0%nat
              (Done tt) st eq_refl) as [Hq Hlen].
  - vm_compute. reflexivity.
  - split; [|by rewrite Hlen]. vm_compute. reflexivity.
Defined.

Lemma input_errors_stop_witness :
  exists msg,
    main scripted_clock (scripted [response [article_sued]]) blank_names
         (fresh 0%nat)
    = (Stopped, Page nat 0%nat ([] ++ [msg]) [] []).
Proof.
  apply (input_errors_stop scripted_clock (scripted [response [article_sued]])
           blank_names (fresh 0%nat) eq_refl).
  right. vm_compute. reflexivity.
Defined.

Lemma null_source_aborts_witness :
  let svc := scripted [response [article_sued; article_null_source]; response []] in
  make_row "a@x.com" article_null_source = Raise (AttributeError PyNone "get")
  /\ exists exc rows,
       main scripted_clock svc two_names (fresh 0%nat)
       = (Raised exc,
          Page nat 1%nat []
               ([] ++ [(request_2021 "a@x.com",
                        response [article_sued; article_null_source])])
               ([] ++ rows)).
Proof.
  intros svc.
  apply (null_source_aborts scripted_clock svc two_names 0%nat 1%nat []
           ["Acme LLC"] "a@x.com" (fresh 0%nat) (request_2021 "a@x.com")
           (response_body [article_sued; article_null_source])
           [article_sued; article_null_source] null_source_fields);
    [ reflexivity | discriminate | vm_compute; reflexivity | reflexivity
    | vm_compute; reflexivity | reflexivity | vm_compute; reflexivity
    | right; left | vm_compute; reflexivity ].
Defined.

Lemma search_entity_never_raises_witness :
  exists v s',
    search_entity scripted_clock (scripted [Raise invalid_key]) two_names
                  "Acme LLC" "k" ["scam"] (fresh 0%nat) = (Done v, s')
    /\ length (calls s') = S (length (calls (fresh 0%nat)))
    /\ aggregated_rows s' = aggregated_rows (fresh 0%nat)
    /\ (errors s' = errors (fresh 0%nat)
        \/ (v = PyList [] /\ exists msg, errors s' = errors (fresh 0%nat) ++ [msg])).
Proof.
  apply search_entity_never_raises.
  - unfold widget_ranges, two_names, form, RESULTS_PER_QUERY. simpl. lia.
  - unfold scripted_clock, Date.MAXORDINAL. simpl. lia.
Defined.

Lemma response_without_articles_witness :
  search_entity scripted_clock (scripted [Ok (PyDict error_body)]) two_names
                "Acme LLC" "k" ["scam"] (fresh 0%nat)
  = (Done (PyList []),
     Page nat 1%nat [] ([] ++ [(scam_request, Ok (PyDict error_body))]) []).
Proof.
  apply (response_without_articles scripted_clock
           (scripted [Ok (PyDict error_body)]) two_names "k" "Acme LLC" ["scam"]
           (fresh 0%nat) scam_request error_body 1%nat);
    [ vm_compute; reflexivity | reflexivity | vm_compute; reflexivity ].
Defined.

Lemma response_not_a_dictionary_witness :
  search_entity scripted_clock (scripted [Ok (PyList [])]) two_names
                "Acme LLC" "k" ["scam"] (fresh 0%nat)
  = (Done (PyList []),
     Page nat 1%nat
          ([] ++ ["Error querying NewsAPI for " +:+ "Acme LLC" +:+ ": '"
                  +:+ type_name (PyList []) +:+ "' object has no attribute 'get'"])
          ([] ++ [(scam_request, Ok (PyList []))]) []).
Proof.
  apply (response_not_a_dictionary scripted_clock (scripted [Ok (PyList [])])
           two_names "k" "Acme LLC" ["scam"] (fresh 0%nat) scam_request
           (PyList []) 1%nat);
    [ vm_compute; reflexivity | reflexivity | discriminate ].
Defined.

Lemma articles_not_iterable_aborts_witness :
  main scripted_clock (scripted [Ok null_articles_body; response []]) two_names
       (fresh 0%nat)
  = (Raised (TypeError "'NoneType' object is not iterable"),
     Page nat 1%nat [] ([] ++ [(request_2021 "a@x.com", Ok null_articles_body)]) []).
Proof.
  apply (articles_not_iterable_aborts scripted_clock
           (scripted [Ok null_articles_body; response []]) two_names
           0%nat 1%nat [] ["Acme LLC"] "a@x.com" (fresh 0%nat)
           (request_2021 "a@x.com") null_articles_body PyNone);
    [ reflexivity | discriminate | vm_compute; reflexivity | reflexivity
    | vm_compute; reflexivity | reflexivity | vm_compute; reflexivity
    | reflexivity ].
Defined.

Lemma calls_need_valid_input_witness :
  run_search two_names = true
  /\ api_key two_names <> EmptyString
  /\ entities two_names <> [].
Proof.
  apply (calls_need_valid_input scripted_clock (scripted [response []; response []])
           two_names 0%nat
           (main scripted_clock (scripted [response []; response []]) two_names
                 (fresh 0%nat)).1
           (main scripted_clock (scripted [response []; response []]) two_names
                 (fresh 0%nat)).2).
  - by destruct (main _ _ _ _).
  - vm_compute. discriminate.
Defined.

Lemma run_bounds_witness :
  let svc := scripted [response [article_sued; article_null_source]; response []] in
  let st := (main scripted_clock svc two_names (fresh 0%nat)).2 in
  (length (errors st) <= length (calls st) <= length (entities two_names))%nat
  /\ Forall (fun r => Entity r ∈ entities two_names) (aggregated_rows st).
Proof.
  intros svc st.
  apply (run_bounds scripted_clock svc two_names 0%nat
           (main scripted_clock svc two_names (fresh 0%nat)).1 st eq_refl).
  - by destruct (main _ _ _ _).
  - vm_compute. discriminate.
Defined.

Lemma all_failed_shows_no_news_witness :
  let svc := scripted [Raise invalid_key; Raise invalid_key] in
  let st := (main scripted_clock svc two_names (fresh 0%nat)).2 in
  length (errors st) = length (entities two_names)
  /\ aggregated_rows st = []
  /\ show_results st
     = NoNews "🎉 No negative news found for any entries in the specified time window.".
Proof.
  intros svc st.
  apply (all_failed_shows_no_news scripted_clock svc two_names 0%nat st eq_refl).
  - vm_compute. reflexivity.
  - vm_compute. repeat constructor; discriminate.
Defined.


Lemma no_articles_shows_no_news_witness :
  let svc := scripted [response []; Ok (PyDict error_body)] in
  let st := (main scripted_clock svc two_names (fresh 0%nat)).2 in
  errors st = []
  /\ aggregated_rows st = []
  /\ show_results st
     = NoNews "🎉 No negative news found for any entries in the specified time window.".
Proof.
  intros svc st.
  apply (no_articles_shows_no_news scripted_clock svc two_names 0%nat st eq_refl).
  - vm_compute. reflexivity.
  - repeat constructor.
    + eexists. split; [reflexivity|]. right. vm_compute. reflexivity.
    + eexists. split; [reflexivity|]. left. vm_compute. reflexivity.
Defined.
